(** * DS1302RTC: the register codec and the 3-wire protocol engine

    A shallow embedding of the DS1302 driver (DS1302RTC.h and its
    implementation file) and the properties of its register codec, its
    session framing and its bit-level serial exchange.

    Conventions.
    - C integers are [Z].  A conversion to [uint8_t] is written [uint8];
      an assignment to an unsigned bit-field of width [w] keeps the low
      [w] bits.  [/] and [%] on [int] truncate toward zero, hence
      [Z.quot] and [Z.rem].
    - The functions of the driver run in a small state monad [M] over
      [world]: the log of the GPIO calls made so far, the log of the
      entries into the four protocol helpers, and the levels the data
      line shows at the successive [digitalRead]s.
    - A parameter passed by reference ([tmElements_t &tm]) is passed in
      and returned. *)

From Stdlib Require Import ZArith List Bool Lia.
From coqutil Require Import Z.bitblast.
Import ListNotations.
Local Open Scope Z_scope.

(** ** Integer conversions and the Arduino bit macros *)

(** Conversion of an [int] to [uint8_t]. *)
Definition uint8 (x : Z) : Z := Z.land x (Z.ones 8).

(** [bitRead(value, bit)] is [(((value) >> (bit)) & 0x01)]. *)
Definition bitRead (value bit : Z) : Z := Z.land (Z.shiftr value bit) 1.

(** [bitSet(value, bit)] is [((value) |= (1UL << (bit)))]. *)
Definition bitSet (value bit : Z) : Z := Z.lor value (Z.shiftl 1 bit).

(** [bitClear(value, bit)] is [((value) &= ~(1UL << (bit)))]. *)
Definition bitClear (value bit : Z) : Z := Z.land value (Z.lnot (Z.shiftl 1 bit)).

(** [bitWrite(value, bit, bitvalue)] is
    [(bitvalue ? bitSet(value, bit) : bitClear(value, bit))]. *)
Definition bitWrite (value bit bitvalue : Z) : Z :=
  if bitvalue =? 0 then bitClear value bit else bitSet value bit.

Definition HIGH : Z := 1.
Definition LOW : Z := 0.
Definition INPUT : Z := 0.
Definition OUTPUT : Z := 1.

(** ** The BCD macros *)

(** [#define bcd2bin(h,l) (((h)*10) + (l))] *)
Definition bcd2bin (h l : Z) : Z := (h * 10) + l.

(** [#define bin2bcd_h(x) ((x)/10)] *)
Definition bin2bcd_h (x : Z) : Z := Z.quot x 10.

(** [#define bin2bcd_l(x) ((x)%10)] *)
Definition bin2bcd_l (x : Z) : Z := Z.rem x 10.

(** ** Register names *)

Definition DS1302_SECONDS : Z := 0x80.
Definition DS1302_MINUTES : Z := 0x82.
Definition DS1302_HOURS : Z := 0x84.
Definition DS1302_DATE : Z := 0x86.
Definition DS1302_MONTH : Z := 0x88.
Definition DS1302_DAY : Z := 0x8A.
Definition DS1302_YEAR : Z := 0x8C.
Definition DS1302_ENABLE : Z := 0x8E.
Definition DS1302_TRICKLE : Z := 0x90.
Definition DS1302_CLOCK_BURST_WRITE : Z := 0xBE.
Definition DS1302_CLOCK_BURST_READ : Z := 0xBF.

Definition DS1302_READBIT : Z := 0.
Definition DS1302_AM_PM : Z := 5.
Definition DS1302_12_24 : Z := 7.

(** ** The register image [ds1302_struct]

    The structure is eight bytes of bit-fields, and the driver hands it
    to the burst transfers as [(uint8_t * ) &rtc].  It is modelled as the
    list of its bytes; a bit-field is the byte it lives in, the position
    of its lowest bit and its width.  Bit-fields are allocated from the
    least significant bit of each byte (the AVR layout, and the one the
    chip's registers and the [DS1302_AM_PM], [DS1302_12_24] bit numbers
    of the source have). *)

Record bitfield : Type := mkField {
  f_byte : nat;
  f_off : Z;
  f_width : Z
}.

Definition ds1302_struct : Type := list Z.

Module ds1302.
Definition Seconds := mkField 0 0 4.
Definition Seconds10 := mkField 0 4 3.
Definition CH := mkField 0 7 1.
Definition Minutes := mkField 1 0 4.
Definition Minutes10 := mkField 1 4 3.
Definition reserved1 := mkField 1 7 1.
Definition h24_Hour := mkField 2 0 4.
Definition h24_Hour10 := mkField 2 4 2.
Definition h24_reserved2 := mkField 2 6 1.
Definition h24_hour_12_24 := mkField 2 7 1.
Definition h12_Hour := mkField 2 0 4.
Definition h12_Hour10 := mkField 2 4 1.
Definition h12_AM_PM := mkField 2 5 1.
Definition h12_reserved2 := mkField 2 6 1.
Definition h12_hour_12_24 := mkField 2 7 1.
Definition Date := mkField 3 0 4.
Definition Date10 := mkField 3 4 2.
Definition reserved3 := mkField 3 6 2.
Definition Month := mkField 4 0 4.
Definition Month10 := mkField 4 4 1.
Definition reserved4 := mkField 4 5 3.
Definition Day := mkField 5 0 3.
Definition reserved5 := mkField 5 3 5.
Definition Year := mkField 6 0 4.
Definition Year10 := mkField 6 4 4.
Definition reserved6 := mkField 7 0 7.
Definition WP := mkField 7 7 1.

(** The bit-fields no statement of [write] assigns. *)
Definition unused : list bitfield :=
  [CH; reserved1; h24_reserved2; reserved3; reserved4; reserved5;
   reserved6; WP].
End ds1302.

(** Replace the [n]-th byte of a buffer (nothing happens past its end). *)
Fixpoint poke (n : nat) (x : Z) (p : list Z) : list Z :=
  match p, n with
  | [], _ => []
  | _ :: t, O => x :: t
  | h :: t, S n' => h :: poke n' x t
  end.

(** Reading a byte's bits [off .. off+w-1]. *)
Definition bits_get (b off w : Z) : Z := Z.land (Z.shiftr b off) (Z.ones w).

(** Storing the low [w] bits of [v] at bits [off .. off+w-1] of a byte,
    the other bits kept. *)
Definition bits_set (b off w v : Z) : Z :=
  Z.lor (Z.ldiff b (Z.shiftl (Z.ones w) off))
        (Z.shiftl (Z.land v (Z.ones w)) off).

(** [rtc.f] *)
Definition bf_get (rtc : ds1302_struct) (f : bitfield) : Z :=
  bits_get (nth (f_byte f) rtc 0) (f_off f) (f_width f).

(** [rtc.f = v] *)
Definition bf_set (f : bitfield) (v : Z) (rtc : ds1302_struct) : ds1302_struct :=
  poke (f_byte f) (bits_set (nth (f_byte f) rtc 0) (f_off f) (f_width f) v) rtc.

(** ** The time record [tmElements_t] of Time.h

    Seven [uint8_t] members. *)

Record tmElements_t : Type := mkTm {
  Second : Z;
  Minute : Z;
  Hour : Z;
  Wday : Z;
  Day : Z;
  Month : Z;
  Year : Z
}.

Definition set_Second (v : Z) (tm : tmElements_t) : tmElements_t :=
  mkTm (uint8 v) (Minute tm) (Hour tm) (Wday tm) (Day tm) (Month tm) (Year tm).
Definition set_Minute (v : Z) (tm : tmElements_t) : tmElements_t :=
  mkTm (Second tm) (uint8 v) (Hour tm) (Wday tm) (Day tm) (Month tm) (Year tm).
Definition set_Hour (v : Z) (tm : tmElements_t) : tmElements_t :=
  mkTm (Second tm) (Minute tm) (uint8 v) (Wday tm) (Day tm) (Month tm) (Year tm).
Definition set_Wday (v : Z) (tm : tmElements_t) : tmElements_t :=
  mkTm (Second tm) (Minute tm) (Hour tm) (uint8 v) (Day tm) (Month tm) (Year tm).
Definition set_Day (v : Z) (tm : tmElements_t) : tmElements_t :=
  mkTm (Second tm) (Minute tm) (Hour tm) (Wday tm) (uint8 v) (Month tm) (Year tm).
Definition set_Month (v : Z) (tm : tmElements_t) : tmElements_t :=
  mkTm (Second tm) (Minute tm) (Hour tm) (Wday tm) (Day tm) (uint8 v) (Year tm).
Definition set_Year (v : Z) (tm : tmElements_t) : tmElements_t :=
  mkTm (Second tm) (Minute tm) (Hour tm) (Wday tm) (Day tm) (Month tm) (uint8 v).

(** ** The register codec *)

(** The assignments of [DS1302RTC::read(tmElements_t &tm)] after its
    burst read.  In the 12-hour branch the source reads
    [bcd2bin(rtc.h12.Hour10, rtc.h12.Hour) + rtc.h12.AM_PM?12:0]; [+]
    binds tighter than [?:], so the sum is the condition of the
    conditional expression. *)
Definition decode_image (rtc : ds1302_struct) (tm : tmElements_t) : tmElements_t :=
  let tm := set_Second (bcd2bin (bf_get rtc ds1302.Seconds10) (bf_get rtc ds1302.Seconds)) tm in
  let tm := set_Minute (bcd2bin (bf_get rtc ds1302.Minutes10) (bf_get rtc ds1302.Minutes)) tm in
  let tm :=
    if bf_get rtc ds1302.h24_hour_12_24 =? 0
    then set_Hour (bcd2bin (bf_get rtc ds1302.h24_Hour10) (bf_get rtc ds1302.h24_Hour)) tm
    else set_Hour
           (if bcd2bin (bf_get rtc ds1302.h12_Hour10) (bf_get rtc ds1302.h12_Hour)
               + bf_get rtc ds1302.h12_AM_PM =? 0
            then 0 else 12) tm in
  let tm := set_Wday (bf_get rtc ds1302.Day) tm in
  let tm := set_Day (bcd2bin (bf_get rtc ds1302.Date10) (bf_get rtc ds1302.Date)) tm in
  let tm := set_Month (bcd2bin (bf_get rtc ds1302.Month10) (bf_get rtc ds1302.Month)) tm in
  let tm := set_Year (bcd2bin (bf_get rtc ds1302.Year10) (bf_get rtc ds1302.Year) + (2000 - 1970)) tm in
  tm.

(** The register image [DS1302RTC::write(tmElements_t &tm)] builds:
    [memset] to zero over the eight bytes, then the bit-field
    assignments in the order of the source. *)
Definition encode_image (tm : tmElements_t) : ds1302_struct :=
  let rtc := repeat 0 8 in
  let rtc := bf_set ds1302.Seconds (bin2bcd_l (Second tm)) rtc in
  let rtc := bf_set ds1302.Seconds10 (bin2bcd_h (Second tm)) rtc in
  let rtc := bf_set ds1302.Minutes (bin2bcd_l (Minute tm)) rtc in
  let rtc := bf_set ds1302.Minutes10 (bin2bcd_h (Minute tm)) rtc in
  let rtc := bf_set ds1302.h24_hour_12_24 0 rtc in
  let rtc := bf_set ds1302.h24_Hour (bin2bcd_l (Hour tm)) rtc in
  let rtc := bf_set ds1302.h24_Hour10 (bin2bcd_h (Hour tm)) rtc in
  let rtc := bf_set ds1302.Day (bin2bcd_l (Wday tm)) rtc in
  let rtc := bf_set ds1302.Date (bin2bcd_l (Day tm)) rtc in
  let rtc := bf_set ds1302.Date10 (bin2bcd_h (Day tm)) rtc in
  let rtc := bf_set ds1302.Month (bin2bcd_l (Month tm)) rtc in
  let rtc := bf_set ds1302.Month10 (bin2bcd_h (Month tm)) rtc in
  let rtc := bf_set ds1302.Year (bin2bcd_l (Year tm - (2000 - 1970))) rtc in
  let rtc := bf_set ds1302.Year10 (bin2bcd_h (Year tm - (2000 - 1970))) rtc in
  rtc.

(** ** The world the driver acts on *)

(** The calls the driver makes into the GPIO layer of the host platform.
    [DigitalRead] carries the level that was returned. *)
Inductive gpio_event : Type :=
| DigitalWrite (pin val : Z)
| PinMode (pin mode : Z)
| DelayMicroseconds (us : Z)
| DigitalRead (pin val : Z).

(** The four helpers of the protocol engine.  Each entry into one of
    them is recorded, with the arguments received. *)
Inductive call : Type :=
| Cstart
| Cstop
| Ctogglewrite (data release : Z)
| Ctoggleread.

Record world : Type := mkWorld {
  gpio : list gpio_event;   (* GPIO calls so far, oldest first *)
  calls : list call;        (* helper entries so far, oldest first *)
  line : nat -> bool;       (* level shown at the n-th digitalRead *)
  reads : nat               (* digitalReads so far *)
}.

Definition M (A : Type) : Type := world -> A * world.

Definition ret {A : Type} (a : A) : M A := fun w => (a, w).

Definition bind {A B : Type} (m : M A) (k : A -> M B) : M B :=
  fun w => let (a, w') := m w in k a w'.

Notation "x <- m ;; k" := (bind m (fun x => k))
  (at level 61, m at next level, right associativity).
Notation "m ;; k" := (bind m (fun _ => k))
  (at level 61, right associativity).

(** [w] after some more GPIO calls [g], helper entries [c] and [k]
    reads of the data line. *)
Definition advance (g : list gpio_event) (c : list call) (k : nat) (w : world) : world :=
  mkWorld (gpio w ++ g) (calls w ++ c) (line w) (k + reads w).

Definition digitalWrite (pin val : Z) : M unit :=
  fun w => (tt, advance [DigitalWrite pin val] [] 0 w).

Definition pinMode (pin mode : Z) : M unit :=
  fun w => (tt, advance [PinMode pin mode] [] 0 w).

Definition delayMicroseconds (us : Z) : M unit :=
  fun w => (tt, advance [DelayMicroseconds us] [] 0 w).

Definition digitalRead (pin : Z) : M Z :=
  fun w =>
    let v := if line w (reads w) then HIGH else LOW in
    (v, advance [DigitalRead pin v] [] 1 w).

Definition enter (c : call) : M unit :=
  fun w => (tt, advance [] [c] 0 w).

(** [for (i = lo; i < lo + n; i++) a = body(i, a);] *)
Fixpoint for_loop {A : Type} (n : nat) (i : Z) (body : Z -> A -> M A) (a : A) : M A :=
  match n with
  | O => ret a
  | S n' => a' <- body i a ;; for_loop n' (i + 1) body a'
  end.

(** ** The driver *)

(** The static members of [DS1302RTC]. *)
Record statics : Type := mkStatics {
  exists_ : bool;
  io : Z;
  sclk : Z;
  rst : Z
}.

(** Before any construction. *)
Definition statics_init : statics := mkStatics false 0 0 0.

(** [DS1302RTC::DS1302RTC(uint8_t _io, uint8_t _sclk, uint8_t _rst)] *)
Definition DS1302RTC (_io _sclk _rst : Z) (s : statics) : statics :=
  mkStatics true _io _sclk _rst.

Definition chipPresent (s : statics) : bool := exists_ s.

Section Driver.

Variable self : statics.

(** External collaborators of Time.h. *)
Variable breakTime : Z -> tmElements_t -> tmElements_t.
Variable makeTime : tmElements_t -> Z.

Definition start : M unit :=
  enter Cstart ;;
  digitalWrite (rst self) LOW ;;
  pinMode (rst self) OUTPUT ;;
  digitalWrite (sclk self) LOW ;;
  pinMode (sclk self) OUTPUT ;;
  pinMode (io self) OUTPUT ;;
  digitalWrite (rst self) HIGH ;;
  delayMicroseconds 4.

Definition stop : M unit :=
  enter Cstop ;;
  digitalWrite (rst self) LOW ;;
  delayMicroseconds 4.

(** One turn of the loop of [toggleread]. *)
Definition toggleread_bit (i data : Z) : M Z :=
  digitalWrite (sclk self) HIGH ;;
  delayMicroseconds 1 ;;
  digitalWrite (sclk self) LOW ;;
  delayMicroseconds 1 ;;
  v <- digitalRead (io self) ;;
  ret (uint8 (bitWrite data i v)).

Definition toggleread : M Z :=
  enter Ctoggleread ;;
  for_loop 8 0 toggleread_bit 0.

(** One turn of the loop of [togglewrite]. *)
Definition togglewrite_bit (data release : Z) (i : Z) (_ : unit) : M unit :=
  digitalWrite (io self) (bitRead data i) ;;
  delayMicroseconds 1 ;;
  digitalWrite (sclk self) HIGH ;;
  delayMicroseconds 1 ;;
  if negb (release =? 0) && (i =? 7)
  then pinMode (io self) INPUT
  else (digitalWrite (sclk self) LOW ;; delayMicroseconds 1).

Definition togglewrite (data release : Z) : M unit :=
  enter (Ctogglewrite data release) ;;
  for_loop 8 0 (togglewrite_bit data release) tt.

(** [clock_burst_read(uint8_t *p)]: the eight bytes stored through [p]
    are returned, first byte first. *)
Definition clock_burst_read : M (list Z) :=
  start ;;
  togglewrite DS1302_CLOCK_BURST_READ 1 ;;
  p <- for_loop 8 0 (fun _ p => b <- toggleread ;; ret (p ++ [b])) [] ;;
  stop ;;
  ret p.

(** [clock_burst_write(uint8_t *p)] *)
Definition clock_burst_write (p : list Z) : M unit :=
  start ;;
  togglewrite DS1302_CLOCK_BURST_WRITE 0 ;;
  for_loop 8 0 (fun i _ => togglewrite (nth (Z.to_nat i) p 0) 0) tt ;;
  stop.

(** [uint8_t DS1302RTC::read(int address)] *)
Definition read_address (address : Z) : M Z :=
  let address := bitSet address DS1302_READBIT in
  start ;;
  togglewrite (uint8 address) 1 ;;
  data <- toggleread ;;
  stop ;;
  ret data.

(** [void DS1302RTC::write(int address, uint8_t data)] *)
Definition write_address (address data : Z) : M unit :=
  let address := bitClear address DS1302_READBIT in
  start ;;
  togglewrite (uint8 address) 0 ;;
  togglewrite data 0 ;;
  stop.

(** [bool DS1302RTC::read(tmElements_t &tm)] *)
Definition read (tm : tmElements_t) : M (bool * tmElements_t) :=
  rtc <- clock_burst_read ;;
  ret (true, decode_image rtc tm).

(** [bool DS1302RTC::write(tmElements_t &tm)] *)
Definition write (tm : tmElements_t) : M (bool * tmElements_t) :=
  write_address DS1302_ENABLE 0 ;;
  write_address DS1302_TRICKLE 0x00 ;;
  clock_burst_write (encode_image tm) ;;
  ret (true, tm).

(** [time_t DS1302RTC::get()]; the local record starts with whatever
    the stack holds, here [tm0]. *)
Definition get (tm0 : tmElements_t) : M Z :=
  r <- read tm0 ;;
  ret (makeTime (snd r)).

(** [bool DS1302RTC::set(time_t t)] *)
Definition set (t : Z) (tm0 : tmElements_t) : M bool :=
  let tm := breakTime t tm0 in
  r <- write tm ;;
  ret (fst r).

(** [void DS1302RTC::halt()] *)
Definition halt : M unit := write_address DS1302_ENABLE 0x00.

End Driver.

(** ** Statements used by the properties below *)

(** Two bit-fields that share no bit. *)
Definition apart (f g : bitfield) : bool :=
  negb (f_byte f =? f_byte g)%nat
  || (f_off f + f_width f <=? f_off g)
  || (f_off g + f_width g <=? f_off f).

(** A bit-field that lies inside a buffer of [n] bytes. *)
Definition field_in (n : nat) (f : bitfield) : bool :=
  (f_byte f <? n)%nat && (0 <=? f_off f) && (0 <=? f_width f).

(** The members of a time record within the ranges of the calendar;
    [Year] counts from 1970 and the chip holds 2000 to 2099. *)
Definition valid_tm (tm : tmElements_t) : Prop :=
  0 <= Second tm <= 59 /\ 0 <= Minute tm <= 59 /\ 0 <= Hour tm <= 23 /\
  1 <= Wday tm <= 7 /\ 1 <= Day tm <= 31 /\ 1 <= Month tm <= 12 /\
  30 <= Year tm <= 129.

(** [m], run in [w], returns [a] after the GPIO calls [g], the helper
    entries [c] and [k] reads of the data line. *)
Definition runs {A : Type} (m : M A) (w : world) (a : A)
           (g : list gpio_event) (c : list call) (k : nat) : Prop :=
  m w = (a, advance g c k w).

(** The GPIO calls of [start] and of [stop]. *)
Definition start_gpio (s : statics) : list gpio_event :=
  [DigitalWrite (rst s) LOW; PinMode (rst s) OUTPUT;
   DigitalWrite (sclk s) LOW; PinMode (sclk s) OUTPUT;
   PinMode (io s) OUTPUT; DigitalWrite (rst s) HIGH;
   DelayMicroseconds 4].

Definition stop_gpio (s : statics) : list gpio_event :=
  [DigitalWrite (rst s) LOW; DelayMicroseconds 4].

(** [i; i+1; ...], [n] of them: the values the counter of a loop takes. *)
Fixpoint zrange (i : Z) (n : nat) : list Z :=
  match n with
  | O => []
  | S n' => i :: zrange (i + 1) n'
  end.

(** What [togglewrite] is to do for bit [i] of [data]: the bit on the
    data line, then the clock up; after that the clock down again, or,
    for the last bit of a write that releases the line, the data line
    turned to input and the clock left alone. *)
Definition write_frame (s : statics) (data release i : Z) : list gpio_event :=
  [DigitalWrite (io s) (Z.b2z (Z.testbit data i)); DelayMicroseconds 1;
   DigitalWrite (sclk s) HIGH; DelayMicroseconds 1]
  ++ (if negb (release =? 0) && (i =? 7)
      then [PinMode (io s) INPUT]
      else [DigitalWrite (sclk s) LOW; DelayMicroseconds 1]).

(** The level last written to [pin] in a log, [cur] when there is none. *)
Fixpoint pin_level (pin : Z) (cur : option Z) (t : list gpio_event) : option Z :=
  match t with
  | [] => cur
  | DigitalWrite p v :: t' => pin_level pin (if p =? pin then Some v else cur) t'
  | _ :: t' => pin_level pin cur t'
  end.

(** The byte [toggleread] assembles from the levels [ln k], [ln (k+1)],
    ... of the data line: the pure part of its loop. *)
Fixpoint sample (ln : nat -> bool) (k : nat) (n : nat) (i data : Z) : Z :=
  match n with
  | O => data
  | S n' =>
      sample ln (S k) n' (i + 1)
             (uint8 (bitWrite data i (if ln k then HIGH else LOW)))
  end.

Definition byte_at (ln : nat -> bool) (k : nat) : Z := sample ln k 8 0 0.

(** The eight bytes a burst read takes from the line, from read [k] on. *)
Definition bytes_at (ln : nat -> bool) (k : nat) : list Z :=
  map (fun m => byte_at ln (8 * m + k)) (seq 0 8).

(** A chip that shifts out the register image [img], least significant
    bit of the first byte first. *)
Definition line_of_image (img : list Z) : nat -> bool :=
  fun n => Z.testbit (nth (n / 8) img 0) (Z.of_nat (n mod 8)).

(** The four transfer operations. *)
Inductive transfer : Type :=
| BurstRead
| BurstWrite (p : list Z)
| RegRead (address : Z)
| RegWrite (address data : Z).

Definition run_transfer (s : statics) (t : transfer) : M unit :=
  match t with
  | BurstRead => clock_burst_read s ;; ret tt
  | BurstWrite p => clock_burst_write s p
  | RegRead address => read_address s address ;; ret tt
  | RegWrite address data => write_address s address data
  end.

Fixpoint run_transfers (s : statics) (ts : list transfer) : M unit :=
  match ts with
  | [] => ret tt
  | t :: ts' => run_transfer s t ;; run_transfers s ts'
  end.

(** The helper entries of one transfer. *)
Definition transfer_calls (t : transfer) : list call :=
  match t with
  | BurstRead =>
      [Cstart; Ctogglewrite DS1302_CLOCK_BURST_READ 1]
      ++ repeat Ctoggleread 8 ++ [Cstop]
  | BurstWrite p =>
      [Cstart; Ctogglewrite DS1302_CLOCK_BURST_WRITE 0]
      ++ map (fun i => Ctogglewrite (nth i p 0) 0) (seq 0 8) ++ [Cstop]
  | RegRead address =>
      [Cstart; Ctogglewrite (uint8 (bitSet address DS1302_READBIT)) 1;
       Ctoggleread; Cstop]
  | RegWrite address data =>
      [Cstart; Ctogglewrite (uint8 (bitClear address DS1302_READBIT)) 0;
       Ctogglewrite data 0; Cstop]
  end.

(** The GPIO calls of [n] turns of the loop of [toggleread], the first
    one taking read [k] of the line. *)
Fixpoint read_frames (s : statics) (ln : nat -> bool) (k n : nat) : list gpio_event :=
  match n with
  | O => []
  | S n' =>
      [DigitalWrite (sclk s) HIGH; DelayMicroseconds 1;
       DigitalWrite (sclk s) LOW; DelayMicroseconds 1;
       DigitalRead (io s) (if ln k then HIGH else LOW)]
      ++ read_frames s ln (S k) n'
  end.

(** The GPIO calls of [togglewrite] and of [toggleread]. *)
Definition togglewrite_gpio (s : statics) (data release : Z) : list gpio_event :=
  flat_map (write_frame s data release) (zrange 0 8).

Definition toggleread_gpio (s : statics) (ln : nat -> bool) (k : nat) : list gpio_event :=
  read_frames s ln k 8.

(** The GPIO calls of a transfer run when [k] reads of the line [ln]
    have been made. *)
Definition transfer_gpio (s : statics) (ln : nat -> bool) (k : nat) (t : transfer)
  : list gpio_event :=
  match t with
  | BurstRead =>
      start_gpio s ++ togglewrite_gpio s DS1302_CLOCK_BURST_READ 1
      ++ flat_map (fun m => toggleread_gpio s ln (8 * m + k)) (seq 0 8)
      ++ stop_gpio s
  | BurstWrite p =>
      start_gpio s ++ togglewrite_gpio s DS1302_CLOCK_BURST_WRITE 0
      ++ flat_map (fun i => togglewrite_gpio s (nth i p 0) 0) (seq 0 8)
      ++ stop_gpio s
  | RegRead address =>
      start_gpio s
      ++ togglewrite_gpio s (uint8 (bitSet address DS1302_READBIT)) 1
      ++ toggleread_gpio s ln k ++ stop_gpio s
  | RegWrite address data =>
      start_gpio s
      ++ togglewrite_gpio s (uint8 (bitClear address DS1302_READBIT)) 0
      ++ togglewrite_gpio s data 0 ++ stop_gpio s
  end.

(** The reads of the data line a transfer makes. *)
Definition transfer_reads (t : transfer) : nat :=
  match t with
  | BurstRead => 64
  | BurstWrite _ => 0
  | RegRead _ => 8
  | RegWrite _ _ => 0
  end.

Definition is_exchange (c : call) : bool :=
  match c with
  | Ctogglewrite _ _ | Ctoggleread => true
  | Cstart | Cstop => false
  end.

(** A log of helper entries read as sessions: [start] only when no
    session is open, a byte exchange and [stop] only inside one, and no
    session left open at the end.  The result is the number of sessions,
    [None] when the log breaks the framing. *)
Fixpoint sessions (open : bool) (cs : list call) : option nat :=
  match cs with
  | [] => if open then None else Some O
  | Cstart :: cs' => if open then None else sessions true cs'
  | Cstop :: cs' => if open then option_map S (sessions false cs') else None
  | _ :: cs' => if open then sessions true cs' else None
  end.

(** What a call added to a log. *)
Definition added {A : Type} (before after : list A) : list A :=
  skipn (length before) after.

(** ** Statements about the wire and the codec *)

(** The byte that holds a two-digit value, tens in the high four bits
    and units in the low four. *)
Definition packed_bcd (v : Z) : Z := 16 * (v / 10) + v mod 10.

(** A register image as the chip holds it while it runs in the 24-hour
    layout: eight bytes, the 12/24 bit and every bit without a meaning
    0 (the clock-halt and write-protect bits among them), every units
    digit at most 9. *)
Definition canonical (img : ds1302_struct) : bool :=
  (length img =? 8)%nat
  && forallb (fun x => uint8 x =? x) img
  && forallb (fun f => bf_get img f =? 0) (ds1302.h24_hour_12_24 :: ds1302.unused)
  && forallb (fun f => bf_get img f <=? 9)
       [ds1302.Seconds; ds1302.Minutes; ds1302.h24_Hour; ds1302.Date;
        ds1302.Month; ds1302.Year].

(** The three lines on three different pins. *)
Definition distinct_pins (s : statics) : Prop :=
  io s <> sclk s /\ io s <> rst s /\ sclk s <> rst s.

(** The bits of a byte as they go over the line, bit 0 first. *)
Definition bits_lsb (x : Z) : list Z :=
  map (fun i => Z.b2z (Z.testbit x i)) (zrange 0 8).

(** What the chip takes in from a log of GPIO calls: the level of the
    data line at each rise of the clock while chip-enable is high.
    [d], [c] and [e] are the levels the data, clock and chip-enable
    lines have been given so far. *)
Fixpoint chip_samples (s : statics) (d c e : Z) (t : list gpio_event) : list Z :=
  match t with
  | [] => []
  | DigitalWrite p v :: t' =>
      let d' := if p =? io s then v else d in
      let c' := if p =? sclk s then v else c in
      let e' := if p =? rst s then v else e in
      (if (c =? LOW) && negb (c' =? LOW) && negb (e' =? LOW) then [d'] else [])
      ++ chip_samples s d' c' e' t'
  | _ :: t' => chip_samples s d c e t'
  end.

(** The driver keeps to the direction it gave the data line: no
    [digitalWrite] to it while it is an input, no [digitalRead] from it
    while it is an output.  [input] is the direction so far. *)
Fixpoint line_discipline (s : statics) (input : bool) (t : list gpio_event) : bool :=
  match t with
  | [] => true
  | PinMode p m :: t' =>
      line_discipline s (if p =? io s then m =? INPUT else input) t'
  | DigitalWrite p _ :: t' =>
      negb ((p =? io s) && input) && line_discipline s input t'
  | DigitalRead p _ :: t' =>
      negb ((p =? io s) && negb input) && line_discipline s input t'
  | DelayMicroseconds _ :: t' => line_discipline s input t'
  end.

(** Whether a transfer ends with the data line released. *)
Definition transfer_releases (t : transfer) : bool :=
  match t with
  | BurstRead | RegRead _ => true
  | BurstWrite _ | RegWrite _ _ => false
  end.

(** The GPIO calls of a sequence of transfers. *)
Fixpoint transfers_gpio (s : statics) (ln : nat -> bool) (k : nat) (ts : list transfer)
  : list gpio_event :=
  match ts with
  | [] => []
  | t :: ts' =>
      transfer_gpio s ln k t ++ transfers_gpio s ln (transfer_reads t + k) ts'
  end.

(** What the chip sees of the clock while chip-enable is high, and when
    the driver reads the data line. *)
Inductive clock_event : Type :=
| Rise
| Fall
| Sample (v : Z).

Fixpoint clock_story (s : statics) (c e : Z) (t : list gpio_event) : list clock_event :=
  match t with
  | [] => []
  | DigitalWrite p v :: t' =>
      let c' := if p =? sclk s then v else c in
      let e' := if p =? rst s then v else e in
      (if negb (e' =? LOW)
       then if (c =? LOW) && negb (c' =? LOW) then [Rise]
            else if negb (c =? LOW) && (c' =? LOW) then [Fall] else []
       else [])
      ++ clock_story s c' e' t'
  | DigitalRead p v :: t' =>
      (if p =? io s then [Sample v] else []) ++ clock_story s c e t'
  | _ :: t' => clock_story s c e t'
  end.

(** The level [digitalRead] returns at read [n] of the line [ln]. *)
Definition level_at (ln : nat -> bool) (n : nat) : Z :=
  if ln n then HIGH else LOW.

(** * Bit-fields *)

Lemma land_ones_small (x w : Z) :
  0 <= x < 2 ^ w -> Z.land x (Z.ones w) = x.
Proof.
  intros H. assert (0 <= w).
  { destruct (Z.le_gt_cases 0 w) as [|Hn]; [assumption|].
    rewrite (Z.pow_neg_r 2 w Hn) in H. lia. }
  rewrite Z.land_ones by assumption. apply Z.mod_small; assumption.
Qed.

Lemma uint8_small (x : Z) : 0 <= x < 256 -> uint8 x = x.
Proof. intros H. apply land_ones_small. exact H. Qed.

Lemma bits_get_range (b off w : Z) :
  0 <= w -> 0 <= bits_get b off w < 2 ^ w.
Proof.
  intros Hw. unfold bits_get. rewrite Z.land_ones by assumption.
  apply Z.mod_pos_bound. apply Z.pow_pos_nonneg; lia.
Qed.

Lemma bits_get_set_same (b off w v : Z) :
  0 <= off -> 0 <= w ->
  bits_get (bits_set b off w v) off w = Z.land v (Z.ones w).
Proof.
  intros Hoff Hw. unfold bits_get, bits_set. Z.bitblast.
Qed.

Lemma bits_get_set_other (b off w v off' w' : Z) :
  0 <= off -> 0 <= w -> 0 <= off' -> 0 <= w' ->
  off' + w' <= off \/ off + w <= off' ->
  bits_get (bits_set b off w v) off' w' = bits_get b off' w'.
Proof.
  intros Hoff Hw Hoff' Hw' Hd. unfold bits_get, bits_set. Z.bitblast.
Qed.

Lemma bitRead_testbit (d i : Z) :
  0 <= i -> bitRead d i = Z.b2z (Z.testbit d i).
Proof.
  intros Hi. unfold bitRead. change 1 with (Z.ones 1).
  rewrite Z.land_ones by lia. rewrite <- Z.bit0_mod.
  rewrite Z.shiftr_spec by lia. reflexivity.
Qed.

Lemma length_poke (n : nat) (x : Z) (p : list Z) :
  length (poke n x p) = length p.
Proof.
  revert n; induction p as [|h t IH]; intros [|n]; simpl; auto.
Qed.

Lemma nth_poke (n m : nat) (x : Z) (p : list Z) :
  nth m (poke n x p) 0 =
  if ((n =? m) && (n <? length p))%nat then x else nth m p 0.
Proof.
  revert n m; induction p as [|h t IH]; intros n m.
  - simpl. rewrite andb_false_r. destruct n; reflexivity.
  - destruct n as [|n], m as [|m]; simpl; try reflexivity.
    rewrite IH. reflexivity.
Qed.

Lemma length_bf_set (f : bitfield) (v : Z) (rtc : ds1302_struct) :
  length (bf_set f v rtc) = length rtc.
Proof. apply length_poke. Qed.

Lemma bf_get_range (rtc : ds1302_struct) (f : bitfield) :
  0 <= f_width f -> 0 <= bf_get rtc f < 2 ^ f_width f.
Proof. intros Hw. apply bits_get_range; assumption. Qed.

Lemma bf_get_set_same (f : bitfield) (v : Z) (rtc : ds1302_struct) :
  field_in (length rtc) f = true ->
  bf_get (bf_set f v rtc) f = Z.land v (Z.ones (f_width f)).
Proof.
  unfold field_in. intros H.
  apply andb_prop in H as [H Hw]. apply andb_prop in H as [Hb Ho].
  unfold bf_get, bf_set. rewrite nth_poke, Nat.eqb_refl, Hb. simpl.
  apply bits_get_set_same; lia.
Qed.

Lemma bf_get_set_other (f g : bitfield) (v : Z) (rtc : ds1302_struct) :
  apart f g = true ->
  field_in (length rtc) f = true -> field_in (length rtc) g = true ->
  bf_get (bf_set f v rtc) g = bf_get rtc g.
Proof.
  unfold field_in. intros Ha Hf Hg.
  apply andb_prop in Hf as [Hf Hfw]. apply andb_prop in Hf as [Hfb Hfo].
  apply andb_prop in Hg as [Hg Hgw]. apply andb_prop in Hg as [Hgb Hgo].
  unfold bf_get, bf_set. rewrite nth_poke, Hfb, andb_true_r.
  destruct (Nat.eqb_spec (f_byte f) (f_byte g)) as [E|E]; [|reflexivity].
  unfold apart in Ha. rewrite E, Nat.eqb_refl in Ha. simpl in Ha.
  rewrite <- E. apply bits_get_set_other; lia.
Qed.

Lemma bf_get_zero (n : nat) (f : bitfield) : bf_get (repeat 0 n) f = 0.
Proof.
  unfold bf_get, bits_get.
  replace (nth (f_byte f) (repeat 0 n) 0) with 0.
  - rewrite Z.shiftr_0_l. apply Z.land_0_l.
  - symmetry. apply nth_repeat.
Qed.

(** * The register codec *)

(** Reading a bit-field of an image built by a chain of bit-field
    assignments. *)
Ltac field_solve :=
  rewrite ?length_bf_set; reflexivity.

Ltac image_field :=
  repeat first
    [ rewrite bf_get_set_same by field_solve
    | rewrite bf_get_set_other by field_solve
    | rewrite bf_get_zero ].

Lemma bcd_digit_bounds (v : Z) :
  0 <= v -> 0 <= bin2bcd_l v < 10 /\ 0 <= bin2bcd_h v /\ bin2bcd_h v * 10 <= v.
Proof.
  intros Hv. unfold bin2bcd_l, bin2bcd_h.
  rewrite Z.rem_mod_nonneg, Z.quot_div_nonneg by lia.
  pose proof (Z.mod_pos_bound v 10 ltac:(lia)).
  pose proof (Z.div_mod v 10 ltac:(lia)).
  pose proof (Z.div_pos v 10 Hv ltac:(lia)).
  lia.
Qed.

Lemma bcd2bin_bin2bcd (v : Z) : bcd2bin (bin2bcd_h v) (bin2bcd_l v) = v.
Proof.
  unfold bcd2bin, bin2bcd_h, bin2bcd_l.
  pose proof (Z.quot_rem' v 10). lia.
Qed.

(** A two-digit value survives the bit-fields that hold its digits when
    the tens fit the width of the tens field. *)
Lemma bcd_pair_fits (v wh : Z) :
  0 <= wh -> 0 <= v < 10 * 2 ^ wh ->
  bcd2bin (Z.land (bin2bcd_h v) (Z.ones wh)) (Z.land (bin2bcd_l v) (Z.ones 4)) = v.
Proof.
  intros Hwh Hv. destruct (bcd_digit_bounds v) as (Hl & Hh & Hm); [lia|].
  rewrite (land_ones_small (bin2bcd_h v)) by nia.
  rewrite (land_ones_small (bin2bcd_l v)) by (change (2 ^ 4) with 16; lia).
  apply bcd2bin_bin2bcd.
Qed.

Lemma decode_encode (tm tm0 : tmElements_t) :
  valid_tm tm -> decode_image (encode_image tm) tm0 = tm.
Proof.
  destruct tm as [s m h wd d mo y]. unfold valid_tm; simpl.
  intros (Hs & Hm & Hh & Hwd & Hd & Hmo & Hy).
  unfold decode_image, encode_image; cbv zeta; simpl Second; simpl Minute;
    simpl Hour; simpl Wday; simpl Day; simpl Month; simpl Year.
  image_field.
  change (Z.land 0 (Z.ones (f_width ds1302.h24_hour_12_24)) =? 0) with true.
  cbv iota.
  unfold ds1302.Seconds10, ds1302.Seconds, ds1302.Minutes10, ds1302.Minutes,
    ds1302.h24_Hour10, ds1302.h24_Hour, ds1302.Date10, ds1302.Date,
    ds1302.Month10, ds1302.Month, ds1302.Year10, ds1302.Year, ds1302.Day,
    f_width.
  rewrite !bcd_pair_fits by (try change (2 ^ 1) with 2; try change (2 ^ 2) with 4;
                             try change (2 ^ 3) with 8; try change (2 ^ 4) with 16; lia).
  destruct (bcd_digit_bounds wd) as (Hl & Hh' & Hm'); [lia|].
  assert (Ewd : bin2bcd_l wd = wd).
  { pose proof (bcd2bin_bin2bcd wd) as E. unfold bcd2bin in E.
    assert (bin2bcd_h wd = 0) by lia. lia. }
  rewrite Ewd, (land_ones_small wd) by (change (2 ^ 3) with 8; lia).
  unfold set_Second, set_Minute, set_Hour, set_Wday, set_Day, set_Month, set_Year.
  simpl.
  rewrite !uint8_small by lia.
  replace (y - 30 + 30) with y by lia.
  reflexivity.
Qed.

(** * The protocol engine *)

Lemma advance_advance g1 c1 k1 g2 c2 k2 w :
  advance g2 c2 k2 (advance g1 c1 k1 w) = advance (g1 ++ g2) (c1 ++ c2) (k2 + k1) w.
Proof.
  unfold advance; simpl. rewrite <- !app_assoc, Nat.add_assoc. reflexivity.
Qed.

Lemma advance_nil w : advance [] [] 0 w = w.
Proof. destruct w; unfold advance; simpl. rewrite !app_nil_r. reflexivity. Qed.

Lemma runs_ret {A} (a : A) w : runs (ret a) w a [] [] 0.
Proof. unfold runs, ret. rewrite advance_nil. reflexivity. Qed.

Lemma runs_bind {A B} (m : M A) (f : A -> M B) w a b g1 c1 k1 g2 c2 k2 :
  runs m w a g1 c1 k1 ->
  runs (f a) (advance g1 c1 k1 w) b g2 c2 k2 ->
  runs (bind m f) w b (g1 ++ g2) (c1 ++ c2) (k2 + k1).
Proof.
  unfold runs, bind. intros -> ->. rewrite advance_advance. reflexivity.
Qed.

Lemma runs_eq {A} (m : M A) w a g c k a' g' c' k' :
  runs m w a g c k -> a = a' -> g = g' -> c = c' -> k = k' ->
  runs m w a' g' c' k'.
Proof. intros H -> -> -> ->. exact H. Qed.

Lemma runs_digitalWrite pin val w :
  runs (digitalWrite pin val) w tt [DigitalWrite pin val] [] 0.
Proof. reflexivity. Qed.

Lemma runs_pinMode pin mode w :
  runs (pinMode pin mode) w tt [PinMode pin mode] [] 0.
Proof. reflexivity. Qed.

Lemma runs_delayMicroseconds us w :
  runs (delayMicroseconds us) w tt [DelayMicroseconds us] [] 0.
Proof. reflexivity. Qed.

Lemma runs_digitalRead pin w :
  runs (digitalRead pin) w (if line w (reads w) then HIGH else LOW)
       [DigitalRead pin (if line w (reads w) then HIGH else LOW)] [] 1.
Proof. reflexivity. Qed.

Lemma runs_enter c w : runs (enter c) w tt [] [c] 0.
Proof. reflexivity. Qed.

Create HintDb runs.
#[local] Hint Resolve runs_digitalWrite runs_pinMode runs_delayMicroseconds
  runs_digitalRead runs_enter : runs.
#[local] Hint Resolve runs_ret : runs.

(** Run a straight-line body: split at each bind, close the leaves with
    the hints. *)
Ltac run_steps :=
  repeat first
    [ solve [eauto 2 with runs]
    | eapply runs_bind ].

Ltac run_body :=
  eapply runs_eq; [ run_steps | reflexivity .. ].

Section Engine.

Variable self : statics.

Lemma runs_start w : runs (start self) w tt (start_gpio self) [Cstart] 0.
Proof. unfold start. run_body. Qed.

Lemma runs_stop w : runs (stop self) w tt (stop_gpio self) [Cstop] 0.
Proof. unfold stop. run_body. Qed.

Lemma runs_togglewrite_bit data release i w :
  0 <= i ->
  runs (togglewrite_bit self data release i tt) w tt
       (write_frame self data release i) [] 0.
Proof.
  intros Hi. unfold togglewrite_bit, write_frame.
  rewrite (bitRead_testbit data i Hi).
  destruct (negb (release =? 0) && (i =? 7)); run_body.
Qed.

Lemma runs_togglewrite_loop data release n : forall i w,
  0 <= i ->
  runs (for_loop n i (togglewrite_bit self data release) tt) w tt
       (flat_map (write_frame self data release) (zrange i n)) [] 0.
Proof.
  induction n as [|n IH]; intros i w Hi; simpl for_loop; simpl zrange.
  - apply runs_ret.
  - eapply runs_eq.
    + eapply runs_bind.
      * apply runs_togglewrite_bit; exact Hi.
      * apply IH. lia.
    + reflexivity.
    + reflexivity.
    + reflexivity.
    + reflexivity.
Qed.

Lemma runs_togglewrite data release w :
  runs (togglewrite self data release) w tt
       (flat_map (write_frame self data release) (zrange 0 8))
       [Ctogglewrite data release] 0.
Proof.
  unfold togglewrite. eapply runs_eq.
  - eapply runs_bind; [apply runs_enter | apply runs_togglewrite_loop; lia].
  - reflexivity.
  - reflexivity.
  - reflexivity.
  - reflexivity.
Qed.

Lemma runs_toggleread_loop n : forall k i data w,
  k = reads w ->
  runs (for_loop n i (toggleread_bit self) data) w
       (sample (line w) k n i data) (read_frames self (line w) k n) [] n.
Proof.
  induction n as [|n IH]; intros k i data w ->; simpl for_loop.
  - apply runs_ret.
  - eapply runs_eq.
    + eapply runs_bind.
      * unfold toggleread_bit. run_body.
      * apply IH. reflexivity.
    + reflexivity.
    + reflexivity.
    + reflexivity.
    + apply Nat.add_1_r.
Qed.

Lemma runs_toggleread w :
  runs (toggleread self) w (byte_at (line w) (reads w))
       (toggleread_gpio self (line w) (reads w)) [Ctoggleread] 8.
Proof.
  unfold toggleread. eapply runs_eq.
  - eapply runs_bind; [apply runs_enter | apply runs_toggleread_loop; reflexivity].
  - reflexivity.
  - reflexivity.
  - reflexivity.
  - reflexivity.
Qed.

#[local] Hint Resolve runs_start runs_stop runs_togglewrite runs_toggleread : runs.

Lemma runs_clock_burst_read w :
  runs (clock_burst_read self) w (bytes_at (line w) (reads w))
       (transfer_gpio self (line w) (reads w) BurstRead)
       (transfer_calls BurstRead) 64.
Proof.
  unfold clock_burst_read. cbn [for_loop]. run_body.
Qed.

Lemma runs_clock_burst_write p w :
  runs (clock_burst_write self p) w tt
       (transfer_gpio self (line w) (reads w) (BurstWrite p))
       (transfer_calls (BurstWrite p)) 0.
Proof.
  unfold clock_burst_write. cbn [for_loop]. run_body.
Qed.

Lemma runs_read_address address w :
  runs (read_address self address) w (byte_at (line w) (reads w))
       (transfer_gpio self (line w) (reads w) (RegRead address))
       (transfer_calls (RegRead address)) 8.
Proof.
  unfold read_address. run_body.
Qed.

Lemma runs_write_address address data w :
  runs (write_address self address data) w tt
       (transfer_gpio self (line w) (reads w) (RegWrite address data))
       (transfer_calls (RegWrite address data)) 0.
Proof.
  unfold write_address. run_body.
Qed.

#[local] Hint Resolve runs_clock_burst_read runs_clock_burst_write
  runs_read_address runs_write_address : runs.

Lemma runs_run_transfer t w :
  runs (run_transfer self t) w tt
       (transfer_gpio self (line w) (reads w) t)
       (transfer_calls t) (transfer_reads t).
Proof.
  destruct t as [|p|address|address data]; unfold run_transfer.
  - eapply runs_eq.
    + eapply runs_bind; [apply runs_clock_burst_read | apply runs_ret].
    + reflexivity.
    + apply app_nil_r.
    + apply app_nil_r.
    + reflexivity.
  - apply runs_clock_burst_write.
  - eapply runs_eq.
    + eapply runs_bind; [apply runs_read_address | apply runs_ret].
    + reflexivity.
    + apply app_nil_r.
    + apply app_nil_r.
    + reflexivity.
  - apply runs_write_address.
Qed.

Lemma runs_read tm w :
  runs (read self tm) w
       (true, decode_image (bytes_at (line w) (reads w)) tm)
       (transfer_gpio self (line w) (reads w) BurstRead)
       (transfer_calls BurstRead) 64.
Proof.
  unfold read. eapply runs_eq.
  - eapply runs_bind; [apply runs_clock_burst_read | apply runs_ret].
  - reflexivity.
  - apply app_nil_r.
  - apply app_nil_r.
  - reflexivity.
Qed.

Lemma runs_write tm w :
  runs (write self tm) w (true, tm)
       (transfer_gpio self (line w) (reads w) (RegWrite DS1302_ENABLE 0)
        ++ transfer_gpio self (line w) (reads w) (RegWrite DS1302_TRICKLE 0)
        ++ transfer_gpio self (line w) (reads w) (BurstWrite (encode_image tm)))
       (transfer_calls (RegWrite DS1302_ENABLE 0)
        ++ transfer_calls (RegWrite DS1302_TRICKLE 0)
        ++ transfer_calls (BurstWrite (encode_image tm))) 0.
Proof.
  unfold write. eapply runs_eq.
  - eapply runs_bind; [apply runs_write_address|].
    eapply runs_bind; [apply runs_write_address|].
    eapply runs_bind; [apply runs_clock_burst_write | apply runs_ret].
  - reflexivity.
  - cbn [line reads advance Nat.add]. rewrite app_nil_r. reflexivity.
  - rewrite app_nil_r. reflexivity.
  - reflexivity.
Qed.

End Engine.

(** What a run adds to the two logs. *)
Lemma runs_calls {A} (m : M A) w a g c k :
  runs m w a g c k -> added (calls w) (calls (snd (m w))) = c.
Proof.
  unfold runs, added. intros ->. simpl.
  rewrite skipn_app, skipn_all, Nat.sub_diag. reflexivity.
Qed.

Lemma runs_gpio {A} (m : M A) w a g c k :
  runs m w a g c k -> added (gpio w) (gpio (snd (m w))) = g.
Proof.
  unfold runs, added. intros ->. simpl.
  rewrite skipn_app, skipn_all, Nat.sub_diag. reflexivity.
Qed.

Lemma runs_result {A} (m : M A) w a g c k :
  runs m w a g c k -> fst (m w) = a.
Proof. unfold runs. intros ->. reflexivity. Qed.

Lemma run_transfers_calls self ts : forall w,
  calls (snd (run_transfers self ts w)) = calls w ++ flat_map transfer_calls ts.
Proof.
  induction ts as [|t ts IH]; intros w; simpl.
  - rewrite app_nil_r. reflexivity.
  - unfold bind. rewrite (runs_run_transfer self t w).
    rewrite IH. simpl. rewrite <- app_assoc. reflexivity.
Qed.

(** * Session framing *)

Lemma sessions_app (c1 c2 : list call) : forall o n m,
  sessions o c1 = Some n -> sessions false c2 = Some m ->
  sessions o (c1 ++ c2) = Some (n + m)%nat.
Proof.
  induction c1 as [|c c1 IH]; intros o n m H1 H2.
  - simpl in *. destruct o; [discriminate|]. injection H1 as <-. exact H2.
  - simpl in *. destruct c, o; try discriminate.
    + apply IH; assumption.
    + destruct (sessions false c1) as [n'|] eqn:E; [|discriminate].
      injection H1 as <-. erewrite IH by (reflexivity || eassumption).
      reflexivity.
    + apply IH; assumption.
    + apply IH; assumption.
Qed.

Lemma sessions_transfer (t : transfer) : sessions false (transfer_calls t) = Some 1%nat.
Proof. destruct t; reflexivity. Qed.

Lemma sessions_transfers (ts : list transfer) :
  sessions false (flat_map transfer_calls ts) = Some (length ts).
Proof.
  induction ts as [|t ts IH]; [reflexivity|].
  simpl flat_map. simpl length.
  change (S (length ts)) with (1 + length ts)%nat.
  apply sessions_app; [apply sessions_transfer | exact IH].
Qed.

(** * The serial read, bit by bit *)

Lemma byte_at_spec (ln : nat -> bool) (k : nat) :
  uint8 (byte_at ln k) = byte_at ln k /\
  forall j, (j < 8)%nat -> Z.testbit (byte_at ln k) (Z.of_nat j) = ln (j + k)%nat.
Proof.
  unfold byte_at. cbn [sample]. split.
  - generalize (ln k), (ln (S k)), (ln (S (S k))), (ln (S (S (S k)))),
      (ln (S (S (S (S k))))), (ln (S (S (S (S (S k)))))),
      (ln (S (S (S (S (S (S k))))))), (ln (S (S (S (S (S (S (S k)))))))).
    intros [] [] [] [] [] [] [] []; reflexivity.
  - intros j Hj.
    do 8 (destruct j as [|j];
          [ cbn [Nat.add];
            generalize (ln k), (ln (S k)), (ln (S (S k))), (ln (S (S (S k)))),
              (ln (S (S (S (S k))))), (ln (S (S (S (S (S k)))))),
              (ln (S (S (S (S (S (S k))))))), (ln (S (S (S (S (S (S (S k))))))));
            intros [] [] [] [] [] [] [] []; reflexivity | ]).
    lia.
Qed.

Lemma byte_eq (x y : Z) :
  uint8 x = x -> uint8 y = y ->
  (forall j, (j < 8)%nat -> Z.testbit x (Z.of_nat j) = Z.testbit y (Z.of_nat j)) ->
  x = y.
Proof.
  intros Hx Hy H. rewrite <- Hx, <- Hy. unfold uint8.
  apply Z.bits_inj'. intros n Hn. rewrite !Z.land_spec.
  destruct (Z.lt_ge_cases n 8) as [Hlt|Hge].
  - specialize (H (Z.to_nat n) ltac:(lia)).
    rewrite Z2Nat.id in H by assumption. rewrite H. reflexivity.
  - rewrite Z.ones_spec_high by lia. rewrite !andb_false_r. reflexivity.
Qed.

(** A burst read from a chip that shifts out [img] stores [img]. *)
Lemma bytes_at_line_of_image (img : list Z) :
  length img = 8%nat -> Forall (fun x => uint8 x = x) img ->
  bytes_at (line_of_image img) 0 = img.
Proof.
  intros Hlen Hb.
  destruct img as [|x0 [|x1 [|x2 [|x3 [|x4 [|x5 [|x6 [|x7 [|]]]]]]]]];
    try discriminate.
  repeat match goal with
         | H : Forall _ (_ :: _) |- _ => inversion H; subst; clear H
         end.
  unfold bytes_at. cbn [map seq].
  repeat (apply (f_equal2 cons);
          [ apply byte_eq;
            [ apply byte_at_spec | assumption
            | intros j Hj; rewrite (proj2 (byte_at_spec _ _)) by exact Hj;
              unfold line_of_image;
              do 8 (destruct j as [|j]; [reflexivity|]); lia ] | ]).
  reflexivity.
Qed.

Lemma bits_set_byte (b off w v : Z) :
  uint8 b = b -> 0 <= off -> 0 <= w -> off + w <= 8 ->
  uint8 (bits_set b off w v) = bits_set b off w v.
Proof.
  intros Hb Hoff Hw Hin. rewrite <- Hb. unfold uint8, bits_set. Z.bitblast.
Qed.

Lemma Forall_poke (P : Z -> Prop) (n : nat) (x : Z) (p : list Z) :
  P x -> Forall P p -> Forall P (poke n x p).
Proof.
  intros Hx Hp. revert n. induction Hp as [|h t Hh Ht IH]; intros [|n]; simpl;
    constructor; auto.
Qed.

Lemma bytes_bf_set (f : bitfield) (v : Z) (rtc : ds1302_struct) :
  ((0 <=? f_off f) && (0 <=? f_width f) && (f_off f + f_width f <=? 8)) = true ->
  Forall (fun x => uint8 x = x) rtc ->
  Forall (fun x => uint8 x = x) (bf_set f v rtc).
Proof.
  intros H Hb. apply andb_prop in H as [H H3]. apply andb_prop in H as [H1 H2].
  unfold bf_set. apply Forall_poke; [|exact Hb].
  apply bits_set_byte; try lia.
  destruct (nth_in_or_default (f_byte f) rtc 0) as [Hin|E];
    [|rewrite E; reflexivity].
  rewrite Forall_forall in Hb. apply Hb. exact Hin.
Qed.

Lemma encode_image_bytes (tm : tmElements_t) :
  length (encode_image tm) = 8%nat /\
  Forall (fun x => uint8 x = x) (encode_image tm).
Proof.
  unfold encode_image; cbv zeta. split.
  - rewrite !length_bf_set. reflexivity.
  - repeat (apply bytes_bf_set; [reflexivity|]).
    repeat constructor.
Qed.

(** * The properties of the specification *)

Lemma pin_level_app (pin : Z) (a b : list gpio_event) : forall cur,
  pin_level pin cur (a ++ b) = pin_level pin (pin_level pin cur a) b.
Proof.
  induction a as [|e a IH]; intros cur; [reflexivity|].
  destruct e; simpl; apply IH.
Qed.


(** The hour as [read] stores it, in each of the two layouts. *)
Lemma decode_hour (rtc : ds1302_struct) (tm : tmElements_t) :
  Hour (decode_image rtc tm) =
  if bf_get rtc ds1302.h24_hour_12_24 =? 0
  then uint8 (bcd2bin (bf_get rtc ds1302.h24_Hour10) (bf_get rtc ds1302.h24_Hour))
  else uint8 (if bcd2bin (bf_get rtc ds1302.h12_Hour10) (bf_get rtc ds1302.h12_Hour)
                 + bf_get rtc ds1302.h12_AM_PM =? 0
              then 0 else 12).
Proof.
  unfold decode_image; cbv zeta.
  destruct (bf_get rtc ds1302.h24_hour_12_24 =? 0); reflexivity.
Qed.

(** C1 (the code departs from it).  A register image in the 12-hour
    layout with the AM/PM bit set, hour digits 0 and 3: the claim asks
    for 3 + 12 = 15, and [read] stores 12, the sum of the decoded hour
    and the AM/PM bit being taken as the condition of [?:]. *)
Theorem read_hour_12h_pm_yields_12 (self : statics) (tm : tmElements_t) :
  let rtc := [0; 0; 0xA3; 0; 0; 0; 0; 0] in
  let w := mkWorld [] [] (line_of_image rtc) 0 in
  bf_get rtc ds1302.h12_hour_12_24 = 1 /\
  bf_get rtc ds1302.h12_AM_PM = 1 /\
  bcd2bin (bf_get rtc ds1302.h12_Hour10) (bf_get rtc ds1302.h12_Hour) + 12 = 15 /\
  fst (fst (read self tm w)) = true /\
  Hour (snd (fst (read self tm w))) = 12.
Proof.
  intros rtc w.
  rewrite (runs_result _ _ _ _ _ _ (runs_read self tm w)). cbn [fst snd].
  replace (bytes_at (line w) (reads w)) with rtc
    by (symmetry; apply bytes_at_line_of_image; [reflexivity | repeat constructor]).
  rewrite decode_hour. repeat split; reflexivity.
Qed.

(** C2.  A time record within the calendar ranges, encoded by the codec
    of [write] and decoded by the codec of [read], comes back unchanged;
    and [read], run against a chip that shifts out the image [write]
    built, reports success and stores the record. *)
Theorem burst_roundtrip (self : statics) (tm tm0 : tmElements_t) (w : world) :
  valid_tm tm ->
  line w = line_of_image (encode_image tm) -> reads w = 0%nat ->
  decode_image (encode_image tm) tm0 = tm /\
  fst (read self tm0 w) = (true, tm).
Proof.
  intros Hv Hl Hr. split.
  - apply decode_encode; exact Hv.
  - rewrite (runs_result _ _ _ _ _ _ (runs_read self tm0 w)), Hl, Hr.
    rewrite bytes_at_line_of_image by apply encode_image_bytes.
    rewrite decode_encode by exact Hv. reflexivity.
Qed.

Lemma burst_roundtrip_witness :
  let tm := mkTm 45 30 23 3 15 6 53 in
  let tm0 := mkTm 0 0 0 0 0 0 0 in
  let w := mkWorld [] [] (line_of_image (encode_image tm)) 0 in
  decode_image (encode_image tm) tm0 = tm /\
  fst (read statics_init tm0 w) = (true, tm).
Proof.
  intros tm tm0 w.
  apply (burst_roundtrip statics_init tm tm0 w).
  - unfold valid_tm, tm; simpl; lia.
  - reflexivity.
  - reflexivity.
Defined.

(** C3.  [set], [read] and [write] return [true] whatever the time, the
    record, the pins and the levels of the data line. *)
Theorem operations_report_success
        (self : statics) (breakTime : Z -> tmElements_t -> tmElements_t)
        (t : Z) (tm : tmElements_t) (w : world) :
  fst (set self breakTime t tm w) = true /\
  fst (fst (read self tm w)) = true /\
  fst (fst (write self tm w)) = true.
Proof.
  split; [|split].
  - unfold set, bind.
    rewrite (runs_write self (breakTime t tm) w). reflexivity.
  - rewrite (runs_result _ _ _ _ _ _ (runs_read self tm w)). reflexivity.
  - rewrite (runs_result _ _ _ _ _ _ (runs_write self tm w)). reflexivity.
Qed.


(** The year as [read] stores it: no wrap-around, the two digits being
    at most 15 each. *)
Lemma decode_year (rtc : ds1302_struct) (tm : tmElements_t) :
  Year (decode_image rtc tm)
  = bcd2bin (bf_get rtc ds1302.Year10) (bf_get rtc ds1302.Year) + 30.
Proof.
  unfold decode_image; cbv zeta.
  destruct (bf_get rtc ds1302.h24_hour_12_24 =? 0); cbn [Year set_Year];
    change (2000 - 1970) with 30; apply uint8_small; unfold bcd2bin;
    pose proof (bf_get_range rtc ds1302.Year10 ltac:(discriminate));
    pose proof (bf_get_range rtc ds1302.Year ltac:(discriminate));
    change (2 ^ f_width ds1302.Year10) with 16 in *;
    change (2 ^ f_width ds1302.Year) with 16 in *; lia.
Qed.

(** C5, the example as the claim states it: year 53 is not stored as the
    digits 5 and 3, and the digits 5 and 3 are not read as year 53. *)
Lemma year_53_is_not_digits_5_3 :
  bf_get (encode_image (mkTm 0 0 0 1 1 1 53)) ds1302.Year10 <> 5 /\
  Year (decode_image [0; 0; 0; 0; 0; 0; 0x53; 0] (mkTm 0 0 0 0 0 0 0)) <> 53.
Proof. split; vm_compute; discriminate. Qed.

(** C5, amended.  [read] stores the decoded chip year plus 30; for a
    year from 30 to 129 [write] stores the digits of the year minus 30,
    and the year read back from that image is the year written.  (Year
    53 is stored as the digits 2 and 3.) *)
Theorem year_codec_offset (rtc : ds1302_struct) (tm tm0 : tmElements_t) :
  30 <= Year tm <= 129 ->
  Year (decode_image rtc tm0)
  = bcd2bin (bf_get rtc ds1302.Year10) (bf_get rtc ds1302.Year) + 30 /\
  bf_get (encode_image tm) ds1302.Year10 = bin2bcd_h (Year tm - 30) /\
  bf_get (encode_image tm) ds1302.Year = bin2bcd_l (Year tm - 30) /\
  Year (decode_image (encode_image tm) tm0) = Year tm.
Proof.
  intros Hy.
  destruct (bcd_digit_bounds (Year tm - 30)) as (Hl & Hh & Hm); [lia|].
  assert (E10 : bf_get (encode_image tm) ds1302.Year10 = bin2bcd_h (Year tm - 30)).
  { unfold encode_image; cbv zeta. image_field.
    change (2000 - 1970) with 30.
    apply land_ones_small. change (2 ^ f_width ds1302.Year10) with 16. lia. }
  assert (E1 : bf_get (encode_image tm) ds1302.Year = bin2bcd_l (Year tm - 30)).
  { unfold encode_image; cbv zeta. image_field.
    change (2000 - 1970) with 30.
    apply land_ones_small. change (2 ^ f_width ds1302.Year) with 16. lia. }
  split; [apply decode_year|]. split; [exact E10|]. split; [exact E1|].
  rewrite decode_year, E10, E1, bcd2bin_bin2bcd. lia.
Qed.

Lemma year_codec_offset_witness :
  let tm := mkTm 0 0 0 1 1 1 53 in
  let tm0 := mkTm 0 0 0 0 0 0 0 in
  let rtc := [0; 0; 0; 0; 0; 0; 0x23; 0] in
  Year (decode_image rtc tm0) = 53 /\
  bf_get (encode_image tm) ds1302.Year10 = 2 /\
  bf_get (encode_image tm) ds1302.Year = 3 /\
  Year (decode_image (encode_image tm) tm0) = 53.
Proof.
  intros tm tm0 rtc.
  apply (year_codec_offset rtc tm tm0). simpl. lia.
Defined.

(** C6.  For [v] from 0 to 99, the tens and the units [bin2bcd_h] and
    [bin2bcd_l] give are put back together by [bcd2bin] as [v]. *)
Theorem bcd_roundtrip (v : Z) :
  0 <= v <= 99 -> bcd2bin (bin2bcd_h v) (bin2bcd_l v) = v.
Proof. intros _. apply bcd2bin_bin2bcd. Qed.

Lemma bcd_roundtrip_witness : bcd2bin (bin2bcd_h 59) (bin2bcd_l 59) = 59.
Proof. apply (bcd_roundtrip 59). lia. Defined.

(** C7.  Each of the four transfers enters [start] once, first, and
    [stop] once, last, with byte exchanges and nothing else in between;
    and the helper entries of any sequence of transfers read as that
    many sessions, none opened inside another. *)
Theorem transfers_are_framed (self : statics) :
  (forall t w, exists xs,
      added (calls w) (calls (snd (run_transfer self t w)))
      = [Cstart] ++ xs ++ [Cstop]
      /\ xs <> [] /\ forallb is_exchange xs = true)
  /\ (forall ts w,
      sessions false (added (calls w) (calls (snd (run_transfers self ts w))))
      = Some (length ts)).
Proof.
  split.
  - intros t w.
    rewrite (runs_calls _ _ _ _ _ _ (runs_run_transfer self t w)).
    destruct t as [|p|address|address data]; cbn [transfer_calls].
    + exists (Ctogglewrite DS1302_CLOCK_BURST_READ 1 :: repeat Ctoggleread 8).
      split; [reflexivity | split; [discriminate | reflexivity]].
    + exists (Ctogglewrite DS1302_CLOCK_BURST_WRITE 0
              :: map (fun i => Ctogglewrite (nth i p 0) 0) (seq 0 8)).
      split; [reflexivity | split; [discriminate | reflexivity]].
    + exists [Ctogglewrite (uint8 (bitSet address DS1302_READBIT)) 1; Ctoggleread].
      split; [reflexivity | split; [discriminate | reflexivity]].
    + exists [Ctogglewrite (uint8 (bitClear address DS1302_READBIT)) 0;
              Ctogglewrite data 0].
      split; [reflexivity | split; [discriminate | reflexivity]].
  - intros ts w. rewrite run_transfers_calls. unfold added.
    rewrite skipn_app, skipn_all, Nat.sub_diag. simpl.
    apply sessions_transfers.
Qed.

(** C8.  [togglewrite] puts the bits of [data] on the data line from
    bit 0 to bit 7, each before the clock goes up.  After bits 0 to 6
    the clock goes down again; after bit 7 it goes down when [release]
    is 0 and otherwise the data line is turned to input instead.  On
    return the level last written to the clock is low when [release] is
    0 and high otherwise. *)
Theorem togglewrite_lsb_first (self : statics) (data release : Z) (w : world) :
  let up i :=
    [DigitalWrite (io self) (Z.b2z (Z.testbit data i)); DelayMicroseconds 1;
     DigitalWrite (sclk self) HIGH; DelayMicroseconds 1] in
  let down := [DigitalWrite (sclk self) LOW; DelayMicroseconds 1] in
  let w' := snd (togglewrite self data release w) in
  added (gpio w) (gpio w')
  = flat_map (fun i => up i ++ down) [0; 1; 2; 3; 4; 5; 6]
    ++ up 7 ++ (if release =? 0 then down else [PinMode (io self) INPUT])
  /\ pin_level (sclk self) None (gpio w')
     = Some (if release =? 0 then LOW else HIGH).
Proof.
  intros up down w'. subst w'.
  pose proof (runs_togglewrite self data release w) as R.
  split.
  - rewrite (runs_gpio _ _ _ _ _ _ R).
    unfold togglewrite_gpio, write_frame, up, down. cbn [zrange flat_map Z.add Pos.add Pos.succ].
    destruct (release =? 0); reflexivity.
  - unfold runs in R. rewrite R. cbn [snd advance gpio].
    rewrite pin_level_app.
    generalize (pin_level (sclk self) None (gpio w)) as cur. intros cur.
    unfold togglewrite_gpio, write_frame. cbn [zrange flat_map Z.add Pos.add Pos.succ].
    destruct (release =? 0); cbn [negb andb Z.eqb Pos.eqb app pin_level];
      rewrite ?Z.eqb_refl; destruct (io self =? sclk self); reflexivity.
Qed.

Ltac field_ranges rtc :=
  pose proof (bf_get_range rtc ds1302.Seconds10 ltac:(discriminate));
  pose proof (bf_get_range rtc ds1302.Seconds ltac:(discriminate));
  pose proof (bf_get_range rtc ds1302.Minutes10 ltac:(discriminate));
  pose proof (bf_get_range rtc ds1302.Minutes ltac:(discriminate));
  pose proof (bf_get_range rtc ds1302.h24_Hour10 ltac:(discriminate));
  pose proof (bf_get_range rtc ds1302.h24_Hour ltac:(discriminate));
  pose proof (bf_get_range rtc ds1302.Day ltac:(discriminate));
  pose proof (bf_get_range rtc ds1302.Date10 ltac:(discriminate));
  pose proof (bf_get_range rtc ds1302.Date ltac:(discriminate));
  pose proof (bf_get_range rtc ds1302.Month10 ltac:(discriminate));
  pose proof (bf_get_range rtc ds1302.Month ltac:(discriminate));
  pose proof (bf_get_range rtc ds1302.Year10 ltac:(discriminate));
  pose proof (bf_get_range rtc ds1302.Year ltac:(discriminate));
  change (2 ^ f_width ds1302.Seconds10) with 8 in *;
  change (2 ^ f_width ds1302.Seconds) with 16 in *;
  change (2 ^ f_width ds1302.Minutes10) with 8 in *;
  change (2 ^ f_width ds1302.Minutes) with 16 in *;
  change (2 ^ f_width ds1302.h24_Hour10) with 4 in *;
  change (2 ^ f_width ds1302.h24_Hour) with 16 in *;
  change (2 ^ f_width ds1302.Day) with 8 in *;
  change (2 ^ f_width ds1302.Date10) with 4 in *;
  change (2 ^ f_width ds1302.Date) with 16 in *;
  change (2 ^ f_width ds1302.Month10) with 2 in *;
  change (2 ^ f_width ds1302.Month) with 16 in *;
  change (2 ^ f_width ds1302.Year10) with 16 in *;
  change (2 ^ f_width ds1302.Year) with 16 in *.

(** The members [read] stores other than the hour and the year: none
    wraps around in its [uint8_t]. *)
Lemma decode_members (rtc : ds1302_struct) (tm : tmElements_t) :
  Second (decode_image rtc tm)
  = bcd2bin (bf_get rtc ds1302.Seconds10) (bf_get rtc ds1302.Seconds) /\
  Minute (decode_image rtc tm)
  = bcd2bin (bf_get rtc ds1302.Minutes10) (bf_get rtc ds1302.Minutes) /\
  Wday (decode_image rtc tm) = bf_get rtc ds1302.Day /\
  Day (decode_image rtc tm)
  = bcd2bin (bf_get rtc ds1302.Date10) (bf_get rtc ds1302.Date) /\
  Month (decode_image rtc tm)
  = bcd2bin (bf_get rtc ds1302.Month10) (bf_get rtc ds1302.Month).
Proof.
  field_ranges rtc.
  unfold decode_image; cbv zeta.
  destruct (bf_get rtc ds1302.h24_hour_12_24 =? 0);
    cbn [Second Minute Wday Day Month set_Second set_Minute set_Hour set_Wday
         set_Day set_Month set_Year];
    unfold bcd2bin; rewrite !uint8_small by lia; repeat split; reflexivity.
Qed.

(** C9.  [read] stores what the digits of the image give and checks
    nothing: whatever bytes the burst read delivers, it reports success
    with the record decoded from them, and every member of that record
    is what its bit-fields give, for every image: seconds, minutes, day
    and month tens times ten plus units, the hour the same in the
    24-hour layout and 0 or 12 in the 12-hour layout, the weekday the
    three bits of its field, the year tens times ten plus units plus
    30.  Against a chip whose seconds register holds 0x60 it reports
    success with 60 seconds; against a chip whose registers hold 0x7F,
    0x7F, 0x3F, 0x3F, 0x1F, 0x00, 0xFF it reports success with 85
    seconds, 85 minutes, hour 45, weekday 0, day 45, month 25 and year
    195. *)
Theorem read_no_range_check (self : statics) (tm : tmElements_t) (w : world) :
  fst (read self tm w) = (true, decode_image (bytes_at (line w) (reads w)) tm)
  /\ (forall rtc,
       Second (decode_image rtc tm)
       = bcd2bin (bf_get rtc ds1302.Seconds10) (bf_get rtc ds1302.Seconds))
  /\ (let w6 := mkWorld (gpio w) (calls w)
                        (line_of_image [0x60; 0; 0; 0; 0; 0; 0; 0]) 0 in
      fst (fst (read self tm w6)) = true /\
      Second (snd (fst (read self tm w6))) = 60)
  /\ (forall rtc,
       Minute (decode_image rtc tm)
       = bcd2bin (bf_get rtc ds1302.Minutes10) (bf_get rtc ds1302.Minutes)
       /\ Hour (decode_image rtc tm)
          = (if bf_get rtc ds1302.h24_hour_12_24 =? 0
             then bcd2bin (bf_get rtc ds1302.h24_Hour10) (bf_get rtc ds1302.h24_Hour)
             else if bcd2bin (bf_get rtc ds1302.h12_Hour10) (bf_get rtc ds1302.h12_Hour)
                     + bf_get rtc ds1302.h12_AM_PM =? 0
                  then 0 else 12)
       /\ Wday (decode_image rtc tm) = bf_get rtc ds1302.Day
       /\ Day (decode_image rtc tm)
          = bcd2bin (bf_get rtc ds1302.Date10) (bf_get rtc ds1302.Date)
       /\ Month (decode_image rtc tm)
          = bcd2bin (bf_get rtc ds1302.Month10) (bf_get rtc ds1302.Month)
       /\ Year (decode_image rtc tm)
          = bcd2bin (bf_get rtc ds1302.Year10) (bf_get rtc ds1302.Year) + 30)
  /\ (let wx := mkWorld (gpio w) (calls w)
                        (line_of_image [0x7F; 0x7F; 0x3F; 0x3F; 0x1F; 0x00; 0xFF; 0x00])
                        0 in
      fst (read self tm wx) = (true, mkTm 85 85 45 0 45 25 195)).
Proof.
  split; [|split; [|split; [|split]]].
  - apply (runs_result _ _ _ _ _ _ (runs_read self tm w)).
  - intros rtc. apply (decode_members rtc tm).
  - intros w6.
    rewrite (runs_result _ _ _ _ _ _ (runs_read self tm w6)). cbn [fst snd].
    replace (bytes_at (line w6) (reads w6)) with [0x60; 0; 0; 0; 0; 0; 0; 0]
      by (symmetry; apply bytes_at_line_of_image; [reflexivity | repeat constructor]).
    split; reflexivity.
  - intros rtc.
    destruct (decode_members rtc tm) as (_ & Emin & Ewd & Ed & Emo).
    split; [exact Emin|]. split.
    { rewrite decode_hour.
      destruct (bf_get rtc ds1302.h24_hour_12_24 =? 0).
      - field_ranges rtc. apply uint8_small. unfold bcd2bin. lia.
      - destruct (bcd2bin (bf_get rtc ds1302.h12_Hour10) (bf_get rtc ds1302.h12_Hour)
                  + bf_get rtc ds1302.h12_AM_PM =? 0); reflexivity. }
    split; [exact Ewd|]. split; [exact Ed|]. split; [exact Emo|].
    apply decode_year.
  - intros wx.
    rewrite (runs_result _ _ _ _ _ _ (runs_read self tm wx)).
    replace (bytes_at (line wx) (reads wx))
      with [0x7F; 0x7F; 0x3F; 0x3F; 0x1F; 0x00; 0xFF; 0x00]
      by (symmetry; apply bytes_at_line_of_image; [reflexivity | repeat constructor]).
    reflexivity.
Qed.

(** C10.  The record [write] is given is the record it leaves: no member
    of [tm] is assigned. *)
Theorem write_leaves_record (self : statics) (tm : tmElements_t) (w : world) :
  snd (fst (write self tm w)) = tm.
Proof.
  rewrite (runs_result _ _ _ _ _ _ (runs_write self tm w)). reflexivity.
Qed.

(** * Further properties of the driver *)

(** * More on the register codec *)

(** In the 24-hour layout [read] stores tens times ten plus units, the
    tens being the two bits 4 and 5 of the hour byte. *)
Theorem read_hour_24h (rtc : ds1302_struct) (tm : tmElements_t) :
  bf_get rtc ds1302.h24_hour_12_24 = 0 ->
  Hour (decode_image rtc tm)
  = bf_get rtc ds1302.h24_Hour10 * 10 + bf_get rtc ds1302.h24_Hour.
Proof.
  intros H. rewrite decode_hour, H. cbn [Z.eqb].
  apply uint8_small. unfold bcd2bin.
  pose proof (bf_get_range rtc ds1302.h24_Hour10 ltac:(discriminate)).
  pose proof (bf_get_range rtc ds1302.h24_Hour ltac:(discriminate)).
  change (2 ^ f_width ds1302.h24_Hour10) with 4 in *.
  change (2 ^ f_width ds1302.h24_Hour) with 16 in *. lia.
Qed.

Lemma read_hour_24h_witness :
  Hour (decode_image [0; 0; 0x23; 0; 0; 0; 0; 0] (mkTm 0 0 0 0 0 0 0)) = 2 * 10 + 3.
Proof.
  apply (read_hour_24h [0; 0; 0x23; 0; 0; 0; 0; 0] (mkTm 0 0 0 0 0 0 0)).
  reflexivity.
Defined.

(** In the 12-hour layout [read] stores 0 when the hour digits and the
    AM/PM bit are all 0 and 12 otherwise: never an hour from 1 to 11 or
    from 13 to 23. *)
Theorem read_hour_12h (rtc : ds1302_struct) (tm : tmElements_t) :
  bf_get rtc ds1302.h12_hour_12_24 = 1 ->
  Hour (decode_image rtc tm)
  = if (bf_get rtc ds1302.h12_Hour10 =? 0) && (bf_get rtc ds1302.h12_Hour =? 0)
       && (bf_get rtc ds1302.h12_AM_PM =? 0)
    then 0 else 12.
Proof.
  intros H. rewrite decode_hour.
  change (bf_get rtc ds1302.h24_hour_12_24) with (bf_get rtc ds1302.h12_hour_12_24).
  rewrite H. cbn [Z.eqb]. unfold bcd2bin.
  pose proof (bf_get_range rtc ds1302.h12_Hour10 ltac:(discriminate)) as H10.
  pose proof (bf_get_range rtc ds1302.h12_Hour ltac:(discriminate)) as H1.
  pose proof (bf_get_range rtc ds1302.h12_AM_PM ltac:(discriminate)) as Hp.
  destruct (Z.eqb_spec (bf_get rtc ds1302.h12_Hour10) 0) as [E10|E10];
    destruct (Z.eqb_spec (bf_get rtc ds1302.h12_Hour) 0) as [E1|E1];
    destruct (Z.eqb_spec (bf_get rtc ds1302.h12_AM_PM) 0) as [Ep|Ep];
    cbn [andb];
    destruct (Z.eqb_spec
                (bf_get rtc ds1302.h12_Hour10 * 10 + bf_get rtc ds1302.h12_Hour
                 + bf_get rtc ds1302.h12_AM_PM) 0) as [E|E];
    try reflexivity; exfalso; lia.
Qed.

Lemma read_hour_12h_witness :
  Hour (decode_image [0; 0; 0x89; 0; 0; 0; 0; 0] (mkTm 0 0 0 0 0 0 0)) = 12.
Proof.
  apply (read_hour_12h [0; 0; 0x89; 0; 0; 0; 0; 0] (mkTm 0 0 0 0 0 0 0)).
  reflexivity.
Defined.

(** [read] assigns all seven members: the record it leaves does not
    depend on the record it was given. *)
Theorem read_overwrites_record (self : statics) (tm1 tm2 : tmElements_t) (w : world) :
  fst (read self tm1 w) = fst (read self tm2 w).
Proof.
  rewrite (runs_result _ _ _ _ _ _ (runs_read self tm1 w)).
  rewrite (runs_result _ _ _ _ _ _ (runs_read self tm2 w)).
  unfold decode_image; cbv zeta.
  destruct (bf_get _ ds1302.h24_hour_12_24 =? 0); reflexivity.
Qed.

Lemma zrange_forall (P : Z -> bool) (n : nat) : forall lo,
  forallb P (zrange lo n) = true ->
  forall v, lo <= v < lo + Z.of_nat n -> P v = true.
Proof.
  induction n as [|n IH]; intros lo H v Hv; [lia|].
  simpl in H. apply andb_prop in H as [H0 H].
  destruct (Z.eq_dec v lo) as [->|Hne]; [exact H0|].
  apply (IH (lo + 1) H). lia.
Qed.

Lemma bits_set_low (l w : Z) : 0 <= l < 2 ^ w -> bits_set 0 0 w l = l.
Proof.
  intros H. unfold bits_set.
  rewrite land_ones_small by exact H.
  rewrite Z.shiftl_0_r. apply Z.lor_0_l.
Qed.

Lemma bits_set_high (l h w : Z) :
  0 <= w -> 0 <= l < 16 -> 0 <= h < 2 ^ w ->
  bits_set l 4 w h = 16 * h + l.
Proof.
  intros Hw Hl Hh. unfold bits_set.
  rewrite (land_ones_small h) by exact Hh.
  assert (El : Z.land l (Z.ones 4) = l) by (apply land_ones_small; exact Hl).
  rewrite <- El at 1.
  replace (Z.ldiff (Z.land l (Z.ones 4)) (Z.shiftl (Z.ones w) 4))
    with (Z.land l (Z.ones 4)) by Z.bitblast.
  rewrite El.
  rewrite Z.or_to_plus.
  - rewrite Z.shiftl_mul_pow2 by lia. change (2 ^ 4) with 16. lia.
  - rewrite <- El. Z.bitblast.
    rewrite (Z.testbit_neg_r h) by lia. apply andb_false_r.
Qed.

(** The image [write] builds for a record within the calendar ranges:
    seconds, minutes, hour, day of month, month and year minus 30 each
    as packed BCD, the weekday as it is, and a last byte of 0. *)
Theorem encode_image_packed (tm : tmElements_t) :
  valid_tm tm ->
  encode_image tm
  = [packed_bcd (Second tm); packed_bcd (Minute tm); packed_bcd (Hour tm);
     packed_bcd (Day tm); packed_bcd (Month tm); Wday tm;
     packed_bcd (Year tm - 30); 0].
Proof.
  destruct tm as [s m h wd d mo y]. unfold valid_tm; cbn [Second Minute Hour Wday Day Month Year].
  intros (Hs & Hm & Hh & Hwd & Hd & Hmo & Hy).
  cbv [encode_image bf_set poke nth repeat f_byte f_off f_width
       ds1302.Seconds ds1302.Seconds10 ds1302.Minutes ds1302.Minutes10
       ds1302.h24_hour_12_24 ds1302.h24_Hour ds1302.h24_Hour10 ds1302.Day
       ds1302.Date ds1302.Date10 ds1302.Month ds1302.Month10 ds1302.Year
       ds1302.Year10 Second Minute Hour Wday Day Month Year].
  change (2000 - 1970) with 30.
  change (bits_set 0 7 1 0) with 0.
  unfold packed_bcd, bin2bcd_l, bin2bcd_h.
  rewrite !Z.rem_mod_nonneg, !Z.quot_div_nonneg by lia.
  rewrite !bits_set_low
    by (try change (2 ^ 4) with 16; try change (2 ^ 3) with 8;
        Z.div_mod_to_equations; lia).
  rewrite !bits_set_high
    by (try change (2 ^ 4) with 16; try change (2 ^ 3) with 8;
        try change (2 ^ 2) with 4; try change (2 ^ 1) with 2;
        Z.div_mod_to_equations; lia).
  replace (wd mod 10) with wd by (Z.div_mod_to_equations; lia).
  reflexivity.
Qed.

Lemma encode_image_packed_witness :
  encode_image (mkTm 45 30 23 3 15 6 53)
  = [0x45; 0x30; 0x23; 0x15; 0x06; 0x03; 0x23; 0x00].
Proof.
  apply (encode_image_packed (mkTm 45 30 23 3 15 6 53)).
  unfold valid_tm; simpl; lia.
Defined.

(** A year before 2000 does not survive the codec: the digits of the
    negative difference to 2000 are cut to four bits each, and what
    comes back is 37 (the year 2007) or more. *)
Theorem year_before_2000_is_lost (tm tm0 : tmElements_t) :
  0 <= Year tm <= 29 ->
  37 <= Year (decode_image (encode_image tm) tm0) /\
  Year (decode_image (encode_image tm) tm0) <> Year tm.
Proof.
  intros Hy. rewrite decode_year.
  unfold encode_image; cbv zeta. image_field.
  change (2000 - 1970) with 30.
  cbv [f_width ds1302.Year10 ds1302.Year].
  pose (P := fun y =>
    (37 <=? bcd2bin (Z.land (bin2bcd_h (y - 30)) (Z.ones 4))
                    (Z.land (bin2bcd_l (y - 30)) (Z.ones 4)) + 30)).
  assert (HP : P (Year tm) = true).
  { apply (zrange_forall P 30 0); [vm_compute; reflexivity | lia]. }
  unfold P in HP. apply Z.leb_le in HP. lia.
Qed.

Lemma year_before_2000_is_lost_witness :
  37 <= Year (decode_image (encode_image (mkTm 0 0 0 4 1 1 0)) (mkTm 0 0 0 0 0 0 0)) /\
  Year (decode_image (encode_image (mkTm 0 0 0 4 1 1 0)) (mkTm 0 0 0 0 0 0 0)) <> 0.
Proof.
  apply (year_before_2000_is_lost (mkTm 0 0 0 4 1 1 0) (mkTm 0 0 0 0 0 0 0)).
  simpl; lia.
Defined.

Lemma bits_get_div_mod (b off w : Z) :
  0 <= off -> 0 <= w -> bits_get b off w = (b / 2 ^ off) mod 2 ^ w.
Proof.
  intros Ho Hw. unfold bits_get.
  rewrite Z.land_ones, Z.shiftr_div_pow2 by assumption. reflexivity.
Qed.

Lemma uint8_mod (x : Z) : uint8 x = x mod 256.
Proof. unfold uint8. rewrite Z.land_ones by lia. reflexivity. Qed.

Lemma bcd_digits_of_pair (t u : Z) :
  0 <= t -> 0 <= u <= 9 ->
  bin2bcd_h (t * 10 + u) = t /\ bin2bcd_l (t * 10 + u) = u.
Proof.
  intros Ht Hu. unfold bin2bcd_h, bin2bcd_l.
  rewrite Z.quot_div_nonneg, Z.rem_mod_nonneg by lia.
  Z.div_mod_to_equations. lia.
Qed.

Lemma repack_digits (t u w : Z) :
  0 <= w -> 0 <= t < 2 ^ w -> 0 <= u <= 9 ->
  bits_set (bits_set 0 0 4 (bin2bcd_l (t * 10 + u))) 4 w (bin2bcd_h (t * 10 + u))
  = 16 * t + u.
Proof.
  intros Hw Ht Hu.
  destruct (bcd_digits_of_pair t u) as [-> ->]; [lia | lia |].
  rewrite bits_set_low by (change (2 ^ 4) with 16; lia).
  apply bits_set_high; lia.
Qed.

Lemma byte_fields (x w : Z) :
  1 <= w <= 4 -> uint8 x = x -> bits_get x (4 + w) (4 - w) = 0 ->
  x = 16 * bits_get x 4 w + bits_get x 0 4.
Proof.
  intros Hw Hx Hz. rewrite uint8_mod in Hx.
  rewrite !bits_get_div_mod in * by lia.
  assert (C : w = 1 \/ w = 2 \/ w = 3 \/ w = 4) by lia.
  destruct C as [-> | [-> | [-> | ->]]];
    repeat match goal with
           | H : context [2 ^ ?e] |- _ =>
               let v := eval vm_compute in (2 ^ e) in change (2 ^ e) with v in H
           | |- context [2 ^ ?e] =>
               let v := eval vm_compute in (2 ^ e) in change (2 ^ e) with v
           end;
    Z.div_mod_to_equations; lia.
Qed.

Lemma bits_get_two (x : Z) :
  bits_get x 6 1 = 0 -> bits_get x 7 1 = 0 -> bits_get x 6 2 = 0.
Proof.
  rewrite !bits_get_div_mod by lia.
  change (2 ^ 6) with 64; change (2 ^ 7) with 128; change (2 ^ 1) with 2;
    change (2 ^ 2) with 4.
  intros H6 H7. Z.div_mod_to_equations. lia.
Qed.

(** A field of two digits read and written back. *)
Lemma repack_field (x w k : Z) :
  1 <= w <= 4 -> 0 <= k <= 30 -> uint8 x = x ->
  bits_get x (4 + w) (4 - w) = 0 -> bits_get x 0 4 <= 9 ->
  bits_set (bits_set 0 0 4
              (bin2bcd_l (uint8 (bcd2bin (bits_get x 4 w) (bits_get x 0 4) + k) - k)))
           4 w
           (bin2bcd_h (uint8 (bcd2bin (bits_get x 4 w) (bits_get x 0 4) + k) - k))
  = x.
Proof.
  intros Hw Hk Hx Hz Hu.
  pose proof (bits_get_range x 4 w ltac:(lia)) as Ht.
  pose proof (bits_get_range x 0 4 ltac:(lia)) as Hu'.
  assert (2 ^ w <= 16).
  { change 16 with (2 ^ 4). apply Z.pow_le_mono_r; lia. }
  unfold bcd2bin. rewrite uint8_small by lia.
  replace (bits_get x 4 w * 10 + bits_get x 0 4 + k - k)
    with (bits_get x 4 w * 10 + bits_get x 0 4) by lia.
  rewrite repack_digits by lia.
  symmetry. apply byte_fields; assumption.
Qed.

Lemma repack_field0 (x w : Z) :
  1 <= w <= 4 -> uint8 x = x ->
  bits_get x (4 + w) (4 - w) = 0 -> bits_get x 0 4 <= 9 ->
  bits_set (bits_set 0 0 4
              (bin2bcd_l (uint8 (bcd2bin (bits_get x 4 w) (bits_get x 0 4)))))
           4 w
           (bin2bcd_h (uint8 (bcd2bin (bits_get x 4 w) (bits_get x 0 4))))
  = x.
Proof.
  intros Hw Hx Hz Hu.
  pose proof (repack_field x w 0 Hw ltac:(lia) Hx Hz Hu) as R.
  rewrite Z.add_0_r, Z.sub_0_r in R. exact R.
Qed.

Ltac pow2_values :=
  repeat match goal with
         | H : context [2 ^ ?e] |- _ =>
             let v := eval vm_compute in (2 ^ e) in change (2 ^ e) with v in H
         | |- context [2 ^ ?e] =>
             let v := eval vm_compute in (2 ^ e) in change (2 ^ e) with v
         end.

Lemma repack_weekday (x : Z) :
  uint8 x = x -> bits_get x 3 5 = 0 ->
  bits_set 0 0 3 (bin2bcd_l (uint8 (bits_get x 0 3))) = x.
Proof.
  intros Hx Hz.
  pose proof (bits_get_range x 0 3 ltac:(lia)) as Hr. change (2 ^ 3) with 8 in Hr.
  rewrite uint8_small by lia.
  assert (E : bin2bcd_l (bits_get x 0 3) = bits_get x 0 3).
  { unfold bin2bcd_l. rewrite Z.rem_mod_nonneg by lia. apply Z.mod_small. lia. }
  rewrite E, bits_set_low by (change (2 ^ 3) with 8; lia).
  rewrite uint8_mod in Hx. rewrite !bits_get_div_mod in * by lia.
  pow2_values. Z.div_mod_to_equations. lia.
Qed.

Lemma byte_of_zero_fields (x : Z) :
  uint8 x = x -> bits_get x 0 7 = 0 -> bits_get x 7 1 = 0 -> 0 = x.
Proof.
  intros Hx H0 H7. rewrite uint8_mod in Hx.
  rewrite !bits_get_div_mod in * by lia.
  pow2_values. Z.div_mod_to_equations. lia.
Qed.

(** The other way round: an image the chip can hold in the 24-hour
    layout, decoded by the codec of [read] and encoded again by the
    codec of [write], is the same image. *)
Theorem encode_decode_canonical (img : ds1302_struct) (tm0 : tmElements_t) :
  canonical img = true -> encode_image (decode_image img tm0) = img.
Proof.
  unfold canonical. intros H.
  apply andb_prop in H as [H Hd]. apply andb_prop in H as [H Hz].
  apply andb_prop in H as [Hl Hb].
  destruct img as [|x0 [|x1 [|x2 [|x3 [|x4 [|x5 [|x6 [|x7 [|]]]]]]]]];
    try discriminate Hl.
  clear Hl.
  cbv [forallb ds1302.unused] in Hb, Hz, Hd.
  repeat match goal with
         | H : _ && _ = true |- _ => apply andb_prop in H as [? ?]
         end.
  repeat match goal with
         | H : (_ =? _) = true |- _ => apply Z.eqb_eq in H
         | H : (_ <=? _) = true |- _ => apply Z.leb_le in H
         end.
  cbv [bf_get nth f_byte f_off f_width
       ds1302.h24_hour_12_24 ds1302.CH ds1302.reserved1 ds1302.h24_reserved2
       ds1302.reserved3 ds1302.reserved4 ds1302.reserved5 ds1302.reserved6
       ds1302.WP ds1302.Seconds ds1302.Minutes ds1302.h24_Hour ds1302.Date
       ds1302.Month ds1302.Year] in *.
  cbv [decode_image bf_get nth f_byte f_off f_width ds1302.h24_hour_12_24].
  match goal with H : bits_get x2 7 1 = 0 |- _ => rewrite H end.
  cbv [encode_image decode_image Z.eqb
       set_Second set_Minute set_Hour set_Wday set_Day set_Month set_Year
       Second Minute Hour Wday Day Month Year
       bf_set bf_get poke nth repeat f_byte f_off f_width
       ds1302.Seconds ds1302.Seconds10 ds1302.Minutes ds1302.Minutes10
       ds1302.h24_hour_12_24 ds1302.h24_Hour ds1302.h24_Hour10 ds1302.Day
       ds1302.Date ds1302.Date10 ds1302.Month ds1302.Month10 ds1302.Year
       ds1302.Year10].
  change (bits_set 0 7 1 0) with 0. change (2000 - 1970) with 30.
  repeat apply (f_equal2 cons).
  - apply repack_field0; try assumption; lia.
  - apply repack_field0; try assumption; lia.
  - apply repack_field0; try assumption; try lia.
    apply bits_get_two; assumption.
  - apply repack_field0; try assumption; lia.
  - apply repack_field0; try assumption; lia.
  - apply repack_weekday; assumption.
  - apply repack_field; try assumption; try lia.
    unfold bits_get. change (Z.ones (4 - 4)) with 0. apply Z.land_0_r.
  - apply byte_of_zero_fields; assumption.
  - reflexivity.
Qed.


Lemma encode_decode_canonical_witness :
  encode_image (decode_image [0x59; 0x07; 0x23; 0x31; 0x12; 0x07; 0x99; 0x00]
                             (mkTm 0 0 0 0 0 0 0))
  = [0x59; 0x07; 0x23; 0x31; 0x12; 0x07; 0x99; 0x00].
Proof.
  apply (encode_decode_canonical
           [0x59; 0x07; 0x23; 0x31; 0x12; 0x07; 0x99; 0x00] (mkTm 0 0 0 0 0 0 0)).
  reflexivity.
Defined.

(** * More on the protocol engine *)

Lemma uint8_range (x : Z) : uint8 x = x -> 0 <= x < 256.
Proof.
  rewrite uint8_mod. intros <-. apply Z.mod_pos_bound. lia.
Qed.

Lemma bytes_of_range (p : list Z) :
  Forall (fun x => 0 <= x < 256) p -> Forall (fun x => uint8 x = x) p.
Proof.
  intros H. eapply Forall_impl; [|exact H]. intros x Hx. apply uint8_small; exact Hx.
Qed.

(** [toggleread] reads the data line eight times, once after each fall
    of the clock, and returns the byte whose bit [j] is the level of the
    [j]-th read; the clock is left low. *)
Theorem toggleread_lsb_first (self : statics) (w : world) :
  let r := fst (toggleread self w) in
  let w' := snd (toggleread self w) in
  (forall j, (j < 8)%nat -> Z.testbit r (Z.of_nat j) = line w (j + reads w)%nat)
  /\ 0 <= r < 256
  /\ reads w' = (8 + reads w)%nat
  /\ added (gpio w) (gpio w')
     = flat_map (fun j =>
                   [DigitalWrite (sclk self) HIGH; DelayMicroseconds 1;
                    DigitalWrite (sclk self) LOW; DelayMicroseconds 1;
                    DigitalRead (io self)
                                (if line w (j + reads w)%nat then HIGH else LOW)])
                (seq 0 8)
  /\ pin_level (sclk self) None (gpio w') = Some LOW.
Proof.
  intros r w'. subst r w'.
  pose proof (runs_toggleread self w) as R.
  rewrite (runs_gpio _ _ _ _ _ _ R), (runs_result _ _ _ _ _ _ R).
  unfold runs in R. rewrite R. cbn [snd advance gpio reads].
  destruct (byte_at_spec (line w) (reads w)) as [Hb Hbits].
  split; [exact Hbits|]. split; [apply uint8_range; exact Hb|].
  split; [reflexivity|]. split; [reflexivity|].
  rewrite pin_level_app. unfold toggleread_gpio. cbn [read_frames app pin_level].
  rewrite !Z.eqb_refl. reflexivity.
Qed.

Lemma toggleread_lsb_first_witness :
  Z.testbit (fst (toggleread statics_init
                    (mkWorld [] [] (fun n => Nat.eqb n 3) 0))) 3 = true.
Proof.
  apply (proj1 (toggleread_lsb_first statics_init
                  (mkWorld [] [] (fun n => Nat.eqb n 3) 0)) 3%nat).
  lia.
Defined.

(** A burst read against a chip that shifts out the eight bytes [img],
    each byte least significant bit first, returns [img]. *)
Theorem clock_burst_read_returns_image (self : statics) (img : list Z) (w : world) :
  length img = 8%nat -> Forall (fun x => 0 <= x < 256) img ->
  line w = line_of_image img -> reads w = 0%nat ->
  fst (clock_burst_read self w) = img.
Proof.
  intros Hl Hb Hline Hr.
  rewrite (runs_result _ _ _ _ _ _ (runs_clock_burst_read self w)), Hline, Hr.
  apply bytes_at_line_of_image; [exact Hl | apply bytes_of_range; exact Hb].
Qed.

Lemma clock_burst_read_returns_image_witness :
  fst (clock_burst_read statics_init
         (mkWorld [] [] (line_of_image [0x45; 0x30; 0x23; 0x15; 0x06; 0x03; 0x23; 0x80]) 0))
  = [0x45; 0x30; 0x23; 0x15; 0x06; 0x03; 0x23; 0x80].
Proof.
  apply (clock_burst_read_returns_image statics_init
           [0x45; 0x30; 0x23; 0x15; 0x06; 0x03; 0x23; 0x80]).
  - reflexivity.
  - repeat constructor; lia.
  - reflexivity.
  - reflexivity.
Defined.

(** The single-register read sends its address with bit 0 forced to 1
    and the bits 1 to 7 of the address as they are, then reads one byte:
    an even and an odd address of the same register do the same. *)
Theorem read_address_sets_read_bit (self : statics) (address : Z) (w : world) :
  let c := uint8 (bitSet address DS1302_READBIT) in
  added (calls w) (calls (snd (read_address self address w)))
  = [Cstart; Ctogglewrite c 1; Ctoggleread; Cstop]
  /\ 0 <= c < 256
  /\ Z.testbit c 0 = true
  /\ (forall j, 1 <= j < 8 -> Z.testbit c j = Z.testbit address j)
  /\ read_address self (Z.lor address 1) w = read_address self address w.
Proof.
  intros c. subst c.
  rewrite (runs_calls _ _ _ _ _ _ (runs_read_address self address w)).
  split; [reflexivity|].
  split.
  { apply uint8_range. unfold uint8. Z.bitblast. }
  split.
  { unfold uint8, bitSet, DS1302_READBIT.
    rewrite Z.land_spec, Z.lor_spec. change (Z.shiftl 1 0) with 1.
    rewrite orb_true_r. reflexivity. }
  split.
  { intros j Hj. unfold uint8, bitSet, DS1302_READBIT.
    rewrite Z.land_spec, Z.lor_spec. change (Z.shiftl 1 0) with 1.
    rewrite Z.ones_spec_low by lia.
    change 1 with (Z.ones 1). rewrite Z.ones_spec_high by lia.
    rewrite orb_false_r, andb_true_r. reflexivity. }
  unfold read_address.
  replace (bitSet (Z.lor address 1) DS1302_READBIT) with (bitSet address DS1302_READBIT).
  - reflexivity.
  - unfold bitSet, DS1302_READBIT. change (Z.shiftl 1 0) with 1.
    rewrite <- Z.lor_assoc. reflexivity.
Qed.

Lemma read_address_sets_read_bit_witness :
  Z.testbit (uint8 (bitSet DS1302_SECONDS DS1302_READBIT)) 7
  = Z.testbit DS1302_SECONDS 7.
Proof.
  apply (proj1 (proj2 (proj2 (proj2
           (read_address_sets_read_bit statics_init DS1302_SECONDS
              (mkWorld [] [] (fun _ => false) 0))))) 7).
  lia.
Defined.

(** The single-register write sends its address with bit 0 forced to 0
    and the bits 1 to 7 as they are, then the data byte. *)
Theorem write_address_clears_read_bit (self : statics) (address data : Z) (w : world) :
  let c := uint8 (bitClear address DS1302_READBIT) in
  added (calls w) (calls (snd (write_address self address data w)))
  = [Cstart; Ctogglewrite c 0; Ctogglewrite data 0; Cstop]
  /\ 0 <= c < 256
  /\ Z.testbit c 0 = false
  /\ (forall j, 1 <= j < 8 -> Z.testbit c j = Z.testbit address j)
  /\ reads (snd (write_address self address data w)) = reads w.
Proof.
  intros c. subst c.
  pose proof (runs_write_address self address data w) as R.
  rewrite (runs_calls _ _ _ _ _ _ R).
  split; [reflexivity|].
  split.
  { apply uint8_range. unfold uint8. Z.bitblast. }
  split.
  { unfold uint8, bitClear, DS1302_READBIT.
    rewrite !Z.land_spec, Z.lnot_spec by lia.
    change (Z.testbit (Z.shiftl 1 0) 0) with true. cbn [negb].
    rewrite andb_false_r. reflexivity. }
  split.
  { intros j Hj. unfold uint8, bitClear, DS1302_READBIT.
    rewrite !Z.land_spec, Z.lnot_spec by lia. change (Z.shiftl 1 0) with 1.
    rewrite Z.ones_spec_low by lia.
    change 1 with (Z.ones 1). rewrite Z.ones_spec_high by lia.
    rewrite !andb_true_r. reflexivity. }
  unfold runs in R. rewrite R. reflexivity.
Qed.

Lemma write_address_clears_read_bit_witness :
  Z.testbit (uint8 (bitClear 0x8F DS1302_READBIT)) 7 = Z.testbit 0x8F 7.
Proof.
  apply (proj1 (proj2 (proj2 (proj2
           (write_address_clears_read_bit statics_init 0x8F 0
              (mkWorld [] [] (fun _ => false) 0))))) 7).
  lia.
Defined.

(** * The lines *)

Section Lines.

Variable self : statics.
Hypothesis Hpins : distinct_pins self.

Lemma pins_eqb :
  (io self =? sclk self) = false /\ (io self =? rst self) = false /\
  (sclk self =? io self) = false /\ (sclk self =? rst self) = false /\
  (rst self =? io self) = false /\ (rst self =? sclk self) = false.
Proof.
  destruct Hpins as (H1 & H2 & H3).
  repeat split; apply Z.eqb_neq; congruence.
Qed.

Ltac pins :=
  destruct pins_eqb as (Eis & Eir & Esi & Esr & Eri & Ers);
  repeat progress (cbn [chip_samples line_discipline pin_level app negb andb orb
               Z.eqb Pos.eqb HIGH LOW INPUT OUTPUT];
          rewrite ?Z.eqb_refl, ?Eis, ?Eir, ?Esi, ?Esr, ?Eri, ?Ers,
            ?andb_false_r, ?andb_true_r).

Lemma samples_start d c e rest :
  chip_samples self d c e (start_gpio self ++ rest)
  = chip_samples self d LOW HIGH rest.
Proof.
  unfold start_gpio. pins. reflexivity.
Qed.

Lemma samples_stop d rest :
  chip_samples self d LOW HIGH (stop_gpio self ++ rest)
  = chip_samples self d LOW LOW rest.
Proof. unfold stop_gpio. pins. reflexivity. Qed.

Lemma samples_togglewrite data release d rest :
  chip_samples self d LOW HIGH (togglewrite_gpio self data release ++ rest)
  = bits_lsb data
    ++ chip_samples self (Z.b2z (Z.testbit data 7))
                    (if release =? 0 then LOW else HIGH) HIGH rest.
Proof.
  unfold togglewrite_gpio, write_frame, bits_lsb.
  cbn [zrange flat_map map Z.add Pos.add Pos.succ].
  destruct (release =? 0); pins; reflexivity.
Qed.

Lemma flat_map_bytes {B} (f : Z -> list B) (p : list Z) :
  length p = 8%nat ->
  flat_map f p
  = flat_map (fun i => f (nth i p 0)) (seq 0 8).
Proof.
  intros H.
  destruct p as [|x0 [|x1 [|x2 [|x3 [|x4 [|x5 [|x6 [|x7 [|]]]]]]]]];
    try discriminate.
  reflexivity.
Qed.

(** What the chip takes in during one [togglewrite], chip-enable high
    and the clock low before: the eight bits of [data], bit 0 first,
    whether the line is released at the end or not. *)
Theorem togglewrite_wire (data release d : Z) (w : world) :
  chip_samples self d LOW HIGH
    (added (gpio w) (gpio (snd (togglewrite self data release w))))
  = bits_lsb data.
Proof.
  rewrite (runs_gpio _ _ _ _ _ _ (runs_togglewrite self data release w)).
  change (flat_map (write_frame self data release) (zrange 0 8))
    with (togglewrite_gpio self data release).
  rewrite <- (app_nil_r (togglewrite_gpio self data release)).
  rewrite samples_togglewrite. cbn [chip_samples]. apply app_nil_r.
Qed.

(** What the chip takes in during [write(tm)], whatever the lines were
    before: the address of the enable register and 0, the address of
    the trickle register and 0, the burst-write command and the eight
    bytes of the image, every byte bit 0 first. *)
Theorem write_wire (tm : tmElements_t) (d c e : Z) (w : world) :
  chip_samples self d c e (added (gpio w) (gpio (snd (write self tm w))))
  = flat_map bits_lsb
      ([DS1302_ENABLE; 0; DS1302_TRICKLE; 0; DS1302_CLOCK_BURST_WRITE]
       ++ encode_image tm).
Proof.
  rewrite (runs_gpio _ _ _ _ _ _ (runs_write self tm w)).
  rewrite flat_map_app.
  rewrite (flat_map_bytes bits_lsb (encode_image tm))
    by apply encode_image_bytes.
  unfold transfer_gpio. cbn [flat_map seq].
  rewrite <- !app_assoc.
  repeat (first [ rewrite samples_start | rewrite samples_stop
                | rewrite samples_togglewrite ];
          cbn [Z.eqb]).
  cbn [app]. unfold stop_gpio. pins. reflexivity.
Qed.

(** The direction of the data line. *)

Lemma discipline_start b rest :
  line_discipline self b (start_gpio self ++ rest)
  = line_discipline self false rest.
Proof. unfold start_gpio. pins. reflexivity. Qed.

Lemma discipline_stop b rest :
  line_discipline self b (stop_gpio self ++ rest)
  = line_discipline self b rest.
Proof. unfold stop_gpio. pins. reflexivity. Qed.

Lemma discipline_togglewrite data release rest :
  line_discipline self false (togglewrite_gpio self data release ++ rest)
  = line_discipline self (negb (release =? 0)) rest.
Proof.
  unfold togglewrite_gpio, write_frame.
  cbn [zrange flat_map map Z.add Pos.add Pos.succ].
  destruct (release =? 0); pins; reflexivity.
Qed.

Lemma discipline_toggleread ln k rest :
  line_discipline self true (toggleread_gpio self ln k ++ rest)
  = line_discipline self true rest.
Proof.
  unfold toggleread_gpio. cbn [read_frames]. pins. reflexivity.
Qed.

Lemma discipline_transfer (t : transfer) ln k b rest :
  line_discipline self b (transfer_gpio self ln k t ++ rest)
  = line_discipline self (transfer_releases t) rest.
Proof.
  destruct t as [|p|address|address data]; unfold transfer_gpio;
    cbn [flat_map seq transfer_releases]; rewrite <- !app_assoc;
    repeat (first [ rewrite discipline_start | rewrite discipline_stop
                  | rewrite discipline_togglewrite
                  | rewrite discipline_toggleread ];
            cbn [Z.eqb negb app]);
    reflexivity.
Qed.

Lemma discipline_transfers (ts : list transfer) ln : forall k b,
  line_discipline self b (transfers_gpio self ln k ts) = true.
Proof.
  induction ts as [|t ts IH]; intros k b; [reflexivity|].
  cbn [transfers_gpio]. rewrite discipline_transfer. apply IH.
Qed.

End Lines.

Lemma runs_run_transfers (self : statics) (ts : list transfer) : forall w,
  exists k,
    runs (run_transfers self ts) w tt
         (transfers_gpio self (line w) (reads w) ts)
         (flat_map transfer_calls ts) k.
Proof.
  induction ts as [|t ts IH]; intros w.
  - exists 0%nat. apply runs_ret.
  - destruct (IH (advance (transfer_gpio self (line w) (reads w) t)
                          (transfer_calls t) (transfer_reads t) w)) as [k Hk].
    exists (k + transfer_reads t)%nat.
    cbn [run_transfers transfers_gpio flat_map].
    eapply runs_bind; [apply runs_run_transfer | exact Hk].
Qed.

(** Over any sequence of transfers the driver never writes to the data
    line while it has it as an input and never reads it while it has it
    as an output, whichever direction the line had before. *)
Theorem transfers_keep_line_direction
        (self : statics) (ts : list transfer) (b : bool) (w : world) :
  distinct_pins self ->
  line_discipline self b
    (added (gpio w) (gpio (snd (run_transfers self ts w)))) = true.
Proof.
  intros Hp. destruct (runs_run_transfers self ts w) as [k Hk].
  rewrite (runs_gpio _ _ _ _ _ _ Hk).
  apply discipline_transfers. exact Hp.
Qed.

Lemma transfers_keep_line_direction_witness :
  line_discipline (mkStatics true 6 7 5) true
    (added []
       (gpio (snd (run_transfers (mkStatics true 6 7 5)
                     [RegWrite DS1302_ENABLE 0; BurstRead; RegRead DS1302_SECONDS]
                     (mkWorld [] [] (fun _ => true) 0))))) = true.
Proof.
  apply (transfers_keep_line_direction (mkStatics true 6 7 5)
           [RegWrite DS1302_ENABLE 0; BurstRead; RegRead DS1302_SECONDS] true
           (mkWorld [] [] (fun _ => true) 0)).
  unfold distinct_pins; simpl; lia.
Defined.

Lemma togglewrite_wire_witness :
  chip_samples (mkStatics true 6 7 5) 0 LOW HIGH
    (added [] (gpio (snd (togglewrite (mkStatics true 6 7 5) 0xBF 1
                                      (mkWorld [] [] (fun _ => false) 0)))))
  = [1; 1; 1; 1; 1; 1; 0; 1].
Proof.
  refine (togglewrite_wire (mkStatics true 6 7 5) _ 0xBF 1 0
            (mkWorld [] [] (fun _ => false) 0)).
  unfold distinct_pins; simpl; lia.
Defined.

Lemma write_wire_witness :
  chip_samples (mkStatics true 6 7 5) 0 0 0
    (added [] (gpio (snd (write (mkStatics true 6 7 5) (mkTm 45 30 23 3 15 6 53)
                                (mkWorld [] [] (fun _ => false) 0)))))
  = flat_map bits_lsb
      [0x8E; 0; 0x90; 0; 0xBE; 0x45; 0x30; 0x23; 0x15; 0x06; 0x03; 0x23; 0x00].
Proof.
  refine (write_wire (mkStatics true 6 7 5) _ (mkTm 45 30 23 3 15 6 53) 0 0 0
            (mkWorld [] [] (fun _ => false) 0)).
  unfold distinct_pins; simpl; lia.
Defined.

(** * The lines at rest *)

Lemma level_togglewrite_keep (s : statics) (data : Z) (cur : option Z) :
  pin_level (sclk s) cur (togglewrite_gpio s data 0) = Some LOW.
Proof.
  unfold togglewrite_gpio, write_frame.
  cbn [zrange flat_map Z.add Pos.add Pos.succ Z.eqb negb andb app pin_level].
  rewrite !Z.eqb_refl. destruct (io s =? sclk s); reflexivity.
Qed.

Lemma level_toggleread (s : statics) (ln : nat -> bool) (k : nat) (cur : option Z) :
  pin_level (sclk s) cur (toggleread_gpio s ln k) = Some LOW.
Proof.
  unfold toggleread_gpio. cbn [read_frames app pin_level].
  rewrite !Z.eqb_refl. reflexivity.
Qed.

Lemma level_stop_rst (s : statics) (cur : option Z) :
  pin_level (rst s) cur (stop_gpio s) = Some LOW.
Proof. unfold stop_gpio. cbn [pin_level]. rewrite Z.eqb_refl. reflexivity. Qed.

Lemma level_stop_sclk (s : statics) :
  pin_level (sclk s) (Some LOW) (stop_gpio s) = Some LOW.
Proof.
  unfold stop_gpio. cbn [pin_level]. destruct (rst s =? sclk s); reflexivity.
Qed.

Lemma level_transfer (s : statics) (ln : nat -> bool) (k : nat) (t : transfer)
      (cur : option Z) :
  pin_level (rst s) cur (transfer_gpio s ln k t) = Some LOW /\
  pin_level (sclk s) cur (transfer_gpio s ln k t) = Some LOW.
Proof.
  destruct t as [|p|address|address data]; unfold transfer_gpio;
    cbn [flat_map seq]; rewrite ?app_nil_r, <- ?app_assoc;
    rewrite !pin_level_app; split;
    rewrite ?level_stop_rst, ?level_toggleread, ?level_togglewrite_keep,
      ?level_stop_sclk; reflexivity.
Qed.

Lemma transfers_gpio_last (s : statics) (ln : nat -> bool) (ts : list transfer) :
  ts <> [] -> forall k,
  exists pre k' t, transfers_gpio s ln k ts = pre ++ transfer_gpio s ln k' t.
Proof.
  induction ts as [|t ts IH]; intros Hne k; [congruence|].
  destruct ts as [|t' ts].
  - exists [], k, t. cbn. rewrite app_nil_r. reflexivity.
  - destruct (IH ltac:(discriminate) (transfer_reads t + k)%nat) as (pre & k' & tl & E).
    exists (transfer_gpio s ln k t ++ pre), k', tl.
    change (transfers_gpio s ln k (t :: t' :: ts))
      with (transfer_gpio s ln k t
            ++ transfers_gpio s ln (transfer_reads t + k) (t' :: ts)).
    rewrite E, app_assoc. reflexivity.
Qed.

(** After any sequence of at least one transfer the level last written
    to chip-enable is low and the level last written to the clock is
    low, whatever the pins, the data and the levels read. *)
Theorem transfers_leave_lines_low (self : statics) (ts : list transfer) (w : world) :
  ts <> [] ->
  let w' := snd (run_transfers self ts w) in
  pin_level (rst self) None (gpio w') = Some LOW /\
  pin_level (sclk self) None (gpio w') = Some LOW.
Proof.
  intros Hne w'. subst w'.
  destruct (runs_run_transfers self ts w) as [k Hk].
  unfold runs in Hk. rewrite Hk. cbn [snd advance gpio].
  destruct (transfers_gpio_last self (line w) ts Hne (reads w)) as (pre & k' & t & E).
  rewrite E, app_assoc, !pin_level_app.
  split; apply level_transfer.
Qed.

Lemma transfers_leave_lines_low_witness :
  let s := mkStatics true 6 7 5 in
  let w' := snd (run_transfers s [BurstRead] (mkWorld [] [] (fun _ => true) 0)) in
  pin_level (rst s) None (gpio w') = Some LOW /\
  pin_level (sclk s) None (gpio w') = Some LOW.
Proof.
  intros s.
  apply (transfers_leave_lines_low s [BurstRead] (mkWorld [] [] (fun _ => true) 0)).
  discriminate.
Defined.

(** [halt] is one session that writes 0 to the enable register and
    reads nothing; what the chip takes in is the address 0x8E and the
    byte 0, so the seconds register, which holds the clock-halt bit, is
    not written. *)
Theorem halt_writes_enable_register (self : statics) (d c e : Z) (w : world) :
  distinct_pins self ->
  let w' := snd (halt self w) in
  added (calls w) (calls w')
  = [Cstart; Ctogglewrite DS1302_ENABLE 0; Ctogglewrite 0 0; Cstop]
  /\ reads w' = reads w
  /\ chip_samples self d c e (added (gpio w) (gpio w'))
     = bits_lsb DS1302_ENABLE ++ bits_lsb 0
  /\ bits_lsb DS1302_ENABLE <> bits_lsb DS1302_SECONDS.
Proof.
  intros Hp w'. subst w'. unfold halt.
  pose proof (runs_write_address self DS1302_ENABLE 0 w) as R.
  rewrite (runs_calls _ _ _ _ _ _ R), (runs_gpio _ _ _ _ _ _ R).
  split; [reflexivity|]. split.
  { unfold runs in R. rewrite R. reflexivity. }
  split; [|discriminate].
  unfold transfer_gpio. rewrite <- (app_nil_r (stop_gpio self)).
  rewrite samples_start by exact Hp.
  rewrite samples_togglewrite by exact Hp. cbn [Z.eqb].
  rewrite samples_togglewrite by exact Hp. cbn [Z.eqb].
  rewrite samples_stop by exact Hp.
  cbn [chip_samples]. rewrite app_nil_r. reflexivity.
Qed.

Lemma halt_writes_enable_register_witness :
  let s := mkStatics true 6 7 5 in
  let w := mkWorld [] [] (fun _ => false) 0 in
  let w' := snd (halt s w) in
  added (calls w) (calls w')
  = [Cstart; Ctogglewrite DS1302_ENABLE 0; Ctogglewrite 0 0; Cstop]
  /\ reads w' = reads w
  /\ chip_samples s 0 0 0 (added (gpio w) (gpio w'))
     = bits_lsb DS1302_ENABLE ++ bits_lsb 0
  /\ bits_lsb DS1302_ENABLE <> bits_lsb DS1302_SECONDS.
Proof.
  intros s w.
  apply (halt_writes_enable_register s 0 0 0 w).
  unfold distinct_pins; simpl; lia.
Defined.

(** * Setting and getting the time *)

(** [set] writes the image of the record [breakTime] gives for the
    time; [get], run against a chip that shifts out that image, returns
    what [makeTime] gives for that record, provided the record lies in
    the calendar ranges; what the local record of [get] held before does
    not matter. *)
Theorem get_after_set
        (self : statics) (breakTime : Z -> tmElements_t -> tmElements_t)
        (makeTime : tmElements_t -> Z) (t : Z) (tm0 tm1 : tmElements_t)
        (w w1 : world) :
  valid_tm (breakTime t tm0) ->
  line w1 = line_of_image (encode_image (breakTime t tm0)) -> reads w1 = 0%nat ->
  added (calls w) (calls (snd (set self breakTime t tm0 w)))
  = transfer_calls (RegWrite DS1302_ENABLE 0)
    ++ transfer_calls (RegWrite DS1302_TRICKLE 0)
    ++ transfer_calls (BurstWrite (encode_image (breakTime t tm0)))
  /\ fst (get self makeTime tm1 w1) = makeTime (breakTime t tm0).
Proof.
  intros Hv Hl Hr. split.
  - assert (R : runs (set self breakTime t tm0) w true
                     (transfer_gpio self (line w) (reads w) (RegWrite DS1302_ENABLE 0)
                      ++ transfer_gpio self (line w) (reads w) (RegWrite DS1302_TRICKLE 0)
                      ++ transfer_gpio self (line w) (reads w)
                           (BurstWrite (encode_image (breakTime t tm0))))
                     (transfer_calls (RegWrite DS1302_ENABLE 0)
                      ++ transfer_calls (RegWrite DS1302_TRICKLE 0)
                      ++ transfer_calls (BurstWrite (encode_image (breakTime t tm0))))
                     0).
    { unfold set. eapply runs_eq.
      - eapply runs_bind; [apply runs_write | apply runs_ret].
      - reflexivity.
      - apply app_nil_r.
      - apply app_nil_r.
      - reflexivity. }
    apply (runs_calls _ _ _ _ _ _ R).
  - unfold get, bind. rewrite (runs_read self tm1 w1). cbn [fst snd ret].
    rewrite Hl, Hr.
    rewrite bytes_at_line_of_image by apply encode_image_bytes.
    rewrite decode_encode by exact Hv. reflexivity.
Qed.

Lemma get_after_set_witness :
  let s := mkStatics true 6 7 5 in
  let breakTime := fun (t : Z) (_ : tmElements_t) =>
    mkTm (t mod 60) ((t / 60) mod 60) ((t / 3600) mod 24) 5 1 1 30 in
  let makeTime := fun tm => Second tm + 60 * Minute tm + 3600 * Hour tm in
  let tm0 := mkTm 0 0 0 0 0 0 0 in
  let w := mkWorld [] [] (fun _ => false) 0 in
  let w1 := mkWorld [] [] (line_of_image (encode_image (breakTime 86399 tm0))) 0 in
  added (calls w) (calls (snd (set s breakTime 86399 tm0 w)))
  = transfer_calls (RegWrite DS1302_ENABLE 0)
    ++ transfer_calls (RegWrite DS1302_TRICKLE 0)
    ++ transfer_calls (BurstWrite (encode_image (breakTime 86399 tm0)))
  /\ fst (get s makeTime tm0 w1) = makeTime (breakTime 86399 tm0).
Proof.
  intros s breakTime makeTime tm0 w w1.
  apply (get_after_set s breakTime makeTime 86399 tm0 tm0 w w1).
  - unfold valid_tm; vm_compute; intuition discriminate.
  - reflexivity.
  - reflexivity.
Defined.

(** * More on what [read] stores *)

(** [read] does not look at the bits without a meaning, the clock-halt
    bit and the write-protect bit: an image that differs in one of them
    gives the same record. *)
Theorem read_ignores_unused_bits
        (rtc : ds1302_struct) (f : bitfield) (v : Z) (tm : tmElements_t) :
  length rtc = 8%nat -> In f ds1302.unused ->
  decode_image (bf_set f v rtc) tm = decode_image rtc tm.
Proof.
  intros Hl Hf. unfold decode_image; cbv zeta.
  assert (G : forall g, apart f g = true -> field_in 8 g = true ->
                        bf_get (bf_set f v rtc) g = bf_get rtc g).
  { intros g Ha Hg. apply bf_get_set_other; rewrite ?Hl; try assumption.
    unfold ds1302.unused in Hf. cbn [In] in Hf.
    repeat (destruct Hf as [<-|Hf]; [reflexivity|]). destruct Hf. }
  unfold ds1302.unused in Hf. cbn [In] in Hf.
  repeat (destruct Hf as [<-|Hf];
          [ rewrite !G by reflexivity; reflexivity | ]).
  destruct Hf.
Qed.

Lemma read_ignores_unused_bits_witness :
  decode_image (bf_set ds1302.CH 1 [0x45; 0x30; 0x23; 0x15; 0x06; 0x03; 0x23; 0x00])
               (mkTm 0 0 0 0 0 0 0)
  = decode_image [0x45; 0x30; 0x23; 0x15; 0x06; 0x03; 0x23; 0x00] (mkTm 0 0 0 0 0 0 0).
Proof.
  apply (read_ignores_unused_bits
           [0x45; 0x30; 0x23; 0x15; 0x06; 0x03; 0x23; 0x00] ds1302.CH 1
           (mkTm 0 0 0 0 0 0 0)).
  - reflexivity.
  - simpl. auto.
Defined.

(** Whatever the chip returns, the members [read] stores are bounded by
    what their bit-fields can hold; the weekday is at most 7 and the
    year at least 30. *)
Theorem read_members_bounded (rtc : ds1302_struct) (tm0 : tmElements_t) :
  let tm := decode_image rtc tm0 in
  0 <= Second tm <= 85 /\ 0 <= Minute tm <= 85 /\ 0 <= Hour tm <= 45 /\
  0 <= Wday tm <= 7 /\ 0 <= Day tm <= 45 /\ 0 <= Month tm <= 25 /\
  30 <= Year tm <= 195.
Proof.
  intros tm. subst tm.
  destruct (decode_members rtc tm0) as (-> & -> & -> & -> & ->).
  rewrite decode_year, decode_hour.
  field_ranges rtc. unfold bcd2bin.
  assert (HH : 0 <= (if bf_get rtc ds1302.h24_hour_12_24 =? 0
                     then uint8 (bf_get rtc ds1302.h24_Hour10 * 10
                                 + bf_get rtc ds1302.h24_Hour)
                     else uint8 (if bf_get rtc ds1302.h12_Hour10 * 10
                                      + bf_get rtc ds1302.h12_Hour
                                      + bf_get rtc ds1302.h12_AM_PM =? 0
                                 then 0 else 12)) <= 45).
  { destruct (bf_get rtc ds1302.h24_hour_12_24 =? 0).
    - rewrite uint8_small; lia.
    - destruct (_ =? 0); cbv; intuition discriminate. }
  lia.
Qed.

(** The digits the BCD macros give for a value from 0 to 99 are decimal
    digits. *)
Theorem bcd_digits_valid (v : Z) :
  0 <= v <= 99 ->
  0 <= bin2bcd_h v <= 9 /\ 0 <= bin2bcd_l v <= 9.
Proof.
  intros Hv. destruct (bcd_digit_bounds v) as (Hl & Hh & Hm); lia.
Qed.

Lemma bcd_digits_valid_witness :
  0 <= bin2bcd_h 99 <= 9 /\ 0 <= bin2bcd_l 99 <= 9.
Proof. apply (bcd_digits_valid 99). lia. Defined.

(** The image [write] builds for a record within the calendar ranges is
    one the chip can hold in the 24-hour layout. *)
Theorem encode_image_canonical (tm : tmElements_t) :
  valid_tm tm -> canonical (encode_image tm) = true.
Proof.
  unfold valid_tm. intros (Hs & Hm & Hh & Hwd & Hd & Hmo & Hy).
  unfold canonical.
  apply andb_true_intro; split;
    [apply andb_true_intro; split; [apply andb_true_intro; split|]|].
  - rewrite (proj1 (encode_image_bytes tm)). reflexivity.
  - apply forallb_forall. intros x Hx. apply Z.eqb_eq.
    pose proof (proj2 (encode_image_bytes tm)) as Hb.
    rewrite Forall_forall in Hb. apply Hb. exact Hx.
  - unfold ds1302.unused, encode_image; cbv zeta. cbn [forallb].
    image_field. reflexivity.
  - unfold encode_image; cbv zeta. cbn [forallb]. image_field.
    change (2000 - 1970) with 30.
    destruct (bcd_digit_bounds (Second tm)) as (? & _); [lia|].
    destruct (bcd_digit_bounds (Minute tm)) as (? & _); [lia|].
    destruct (bcd_digit_bounds (Hour tm)) as (? & _); [lia|].
    destruct (bcd_digit_bounds (Day tm)) as (? & _); [lia|].
    destruct (bcd_digit_bounds (Month tm)) as (? & _); [lia|].
    destruct (bcd_digit_bounds (Year tm - 30)) as (? & _); [lia|].
    rewrite !land_ones_small
      by (cbv [f_width ds1302.Seconds ds1302.Minutes ds1302.h24_Hour
               ds1302.Date ds1302.Month ds1302.Year];
          change (2 ^ 4) with 16; lia).
    repeat (apply andb_true_intro; split); try reflexivity; apply Z.leb_le; lia.
Qed.

Lemma encode_image_canonical_witness :
  canonical (encode_image (mkTm 45 30 23 3 15 6 53)) = true.
Proof.
  apply (encode_image_canonical (mkTm 45 30 23 3 15 6 53)).
  unfold valid_tm; simpl; lia.
Defined.

Section Clocking.

Variable self : statics.
Hypothesis Hpins : distinct_pins self.

Ltac pins :=
  destruct (pins_eqb self Hpins) as (Eis & Eir & Esi & Esr & Eri & Ers);
  repeat progress (cbn [clock_story app negb andb orb
                        Z.eqb Pos.eqb HIGH LOW INPUT OUTPUT];
                   rewrite ?Z.eqb_refl, ?Eis, ?Eir, ?Esi, ?Esr, ?Eri, ?Ers,
                     ?andb_false_r, ?andb_true_r).

Lemma story_start c e rest :
  clock_story self c e (start_gpio self ++ rest)
  = clock_story self LOW HIGH rest.
Proof. unfold start_gpio. pins. reflexivity. Qed.

Lemma story_stop c rest :
  clock_story self c HIGH (stop_gpio self ++ rest)
  = clock_story self c LOW rest.
Proof. unfold stop_gpio. pins. reflexivity. Qed.

Lemma story_togglewrite data release rest :
  clock_story self LOW HIGH (togglewrite_gpio self data release ++ rest)
  = concat (repeat [Rise; Fall] 7) ++ [Rise]
    ++ (if release =? 0 then [Fall] else [])
    ++ clock_story self (if release =? 0 then LOW else HIGH) HIGH rest.
Proof.
  unfold togglewrite_gpio, write_frame.
  cbn [zrange flat_map map Z.add Pos.add Pos.succ concat repeat].
  destruct (release =? 0); pins; reflexivity.
Qed.

Lemma story_toggleread_first ln k rest :
  clock_story self HIGH HIGH (toggleread_gpio self ln k ++ rest)
  = [Fall; Sample (level_at ln k)]
    ++ flat_map (fun j => [Rise; Fall; Sample (level_at ln (j + k))]) (seq 1 7)
    ++ clock_story self LOW HIGH rest.
Proof.
  unfold toggleread_gpio, level_at. cbn [read_frames flat_map seq]. pins.
  reflexivity.
Qed.

Lemma story_toggleread_next ln k rest :
  clock_story self LOW HIGH (toggleread_gpio self ln k ++ rest)
  = flat_map (fun j => [Rise; Fall; Sample (level_at ln (j + k))]) (seq 0 8)
    ++ clock_story self LOW HIGH rest.
Proof.
  unfold toggleread_gpio, level_at. cbn [read_frames flat_map seq]. pins.
  reflexivity.
Qed.

(** The clock in a read, single or burst, whatever the lines were
    before: eight rises for the command with seven falls between them,
    then the first bit of data read after one fall and no rise, and
    every further bit after one rise and one fall. *)
Theorem read_transfer_clocking (t : transfer) (c e : Z) (w : world) :
  transfer_releases t = true ->
  clock_story self c e (added (gpio w) (gpio (snd (run_transfer self t w))))
  = concat (repeat [Rise; Fall] 7) ++ [Rise]
    ++ [Fall; Sample (level_at (line w) (reads w))]
    ++ flat_map (fun j => [Rise; Fall; Sample (level_at (line w) (j + reads w))])
                (seq 1 (transfer_reads t - 1)).
Proof.
  intros Hr.
  rewrite (runs_gpio _ _ _ _ _ _ (runs_run_transfer self t w)).
  destruct t as [|p|address|address data]; try discriminate Hr;
    unfold transfer_gpio; cbn [flat_map seq transfer_reads];
    rewrite <- ?app_assoc, <- (app_nil_r (stop_gpio self));
    rewrite story_start, story_togglewrite; cbn [Z.eqb app];
    rewrite story_toggleread_first;
    repeat rewrite story_toggleread_next;
    rewrite story_stop; cbn [clock_story]; rewrite ?app_nil_r;
    reflexivity.
Qed.

End Clocking.

Lemma read_transfer_clocking_witness :
  let s := mkStatics true 6 7 5 in
  let w := mkWorld [] [] (fun _ => true) 0 in
  clock_story s 0 0 (added (gpio w) (gpio (snd (run_transfer s (RegRead DS1302_SECONDS) w))))
  = concat (repeat [Rise; Fall] 7) ++ [Rise]
    ++ [Fall; Sample (level_at (line w) (reads w))]
    ++ flat_map (fun j => [Rise; Fall; Sample (level_at (line w) (j + reads w))])
                (seq 1 (transfer_reads (RegRead DS1302_SECONDS) - 1)).
Proof.
  intros s w.
  refine (read_transfer_clocking s _ (RegRead DS1302_SECONDS) 0 0 w _).
  - unfold distinct_pins; simpl; lia.
  - reflexivity.
Defined.
